(** * RAPIDS deployment documentation: scripts of the repository

    Shallow embedding of the three Python programs of the repository:
    - [examples/rapids-sagemaker-hpo/serve.py], the Flask inference server
      (module [Serve]);
    - [scripts/gen_release_checklist_issue.py], the release checklist
      generator (module [Checklist]);
    - [source/conf.py], the Sphinx configuration (module [Conf]).

    Third-party libraries (glob, joblib, xgboost, cuml, numpy, json,
    frontmatter) are not part of the repository: what the scripts call is
    taken as an interface, and every statement holds for all of its
    implementations. *)

From Corelib Require Import PrimFloat FloatOps SpecFloat.
From Stdlib Require Import String Ascii List ZArith Lia Bool.
From Stdlib Require Import Sorted Permutation.
From stdpp Require Import base gmap strings list.
Import ListNotations.
Local Open Scope string_scope.
Local Open Scope list_scope.

(** The line feed of Python's ["\n"]. *)
Definition nl : string := String (ascii_of_nat 10) EmptyString.

(** Python's [needle in s] on strings. *)
Fixpoint contains (needle s : string) : bool :=
  if String.prefix needle s then true
  else match s with
       | EmptyString => false
       | String _ rest => contains needle rest
       end.

(** * serve.py *)
Module Serve.

(** A Python exception, as far as the script looks at it: [str(e)]. *)
Record exn := Exception { exn_str : string }.

(** A numpy array of numbers, by its nesting ([tolist] of it).  A number
    of the array, of whatever dtype, is given by the Python float of its
    value: every float32 number is a binary64 number. *)
#[warnings="-register-all"]
Inductive ndarray :=
| Scalar (x : float)
| Array (xs : list ndarray).

(** Elementwise application of a scalar function (numpy broadcasting). *)
Fixpoint nd_map (f : float -> float) (a : ndarray) : ndarray :=
  match a with
  | Scalar x => Scalar (f x)
  | Array xs => Array (List.map (nd_map f) xs)
  end.

(** Every element of the array satisfies [P]. *)
Fixpoint nd_all (P : float -> Prop) (a : ndarray) : Prop :=
  match a with
  | Scalar x => P x
  | Array xs => List.fold_right (fun b acc => nd_all P b /\ acc) True xs
  end.

(** The libraries and the machine the script runs on.  A library call
    that raises returns [inl].  [model] is what the loaders return and
    [input] what the script holds of a request: the array made of the
    body, of numbers or not, and what the conversions make of it. *)
Class Backend (model input : Type) := {
  GPU_INFERENCE_FLAG : bool;
  glob_glob : string -> list string;
  ForestInference_load : string -> exn + model;
  Booster_load_model : string -> exn + model;
  joblib_load : string -> exn + model;
  (** [numpy.array(json.loads(data))] *)
  json_loads_array : string -> exn + input;
  (** [xgboost.DMatrix(query_data)] *)
  xgboost_DMatrix : input -> exn + input;
  (** [query_data.astype("float32")] *)
  astype_float32 : input -> exn + input;
  (** [reloaded_model.predict(...)] *)
  model_predict : model -> input -> exn + ndarray;
  (** [p > t] as numpy decides it between an element [p] of the
      predictions and the Python float [t], in the dtype of the array (for
      float32 predictions the threshold is rounded to float32 first). *)
  numpy_greater : float -> float -> bool;
}.

(** The body of a [flask.Response]: a literal text, or [json.dumps] of a
    value, kept as the value that is serialized. *)
Inductive body :=
| Text (s : string)
| JsonDumps (v : ndarray).

Record Response := mkResponse {
  response : body;
  status : Z;
  mimetype : option string;
}.

Section Server.
Context {model input : Type} {B : Backend model input}.

(** [(predictions > xgboost_threshold) * 1.0] on one element: numpy's
    comparison gives a bool, which is multiplied as 1.0 or 0.0 by the
    Python float 1.0, in binary64. *)
Definition threshold_elem (xgboost_threshold p : float) : float :=
  PrimFloat.mul (if numpy_greater p xgboost_threshold then 1%float else 0%float)
                1%float.

Definition threshold (xgboost_threshold : float) (predictions : ndarray) : ndarray :=
  nd_map (threshold_elem xgboost_threshold) predictions.

(** What the libraries are asked to do, in order: instrumentation of the
    model, to count scans, loads and inferences. *)
Inductive event :=
| EvCall                      (* load_trained_model() is called *)
| EvGlob (pattern : string)
| EvDeserialize (model_filename : string)
| EvPredict (model_filename : string).

(** The value [lru_cache] holds for the one (empty) argument tuple. *)
Definition loaded : Type := model * string * string.

Record state := mkState {
  lru : option loaded;
  trace : list event;
}.

Definition init : state := {| lru := None; trace := [] |}.

Definition log (e : event) (st : state) : state :=
  {| lru := lru st; trace := trace st ++ [e] |}.

Inductive outcome (A : Type) :=
| Returned (a : A)
| Raised (e : exn).
Arguments Returned {A} a.
Arguments Raised {A} e.

(** Computations of the script: state passing, with exceptions. *)
Definition M (A : Type) : Type := state -> outcome A * state.

Definition ret {A} (a : A) : M A := fun st => (Returned a, st).
Definition raise {A} (e : exn) : M A := fun st => (Raised e, st).
Definition bind {A C} (m : M A) (k : A -> M C) : M C :=
  fun st => match m st with
            | (Returned a, st') => k a st'
            | (Raised e, st') => (Raised e, st')
            end.
Definition try_except {A} (m : M A) (handler : exn -> M A) : M A :=
  fun st => match m st with
            | (Returned a, st') => (Returned a, st')
            | (Raised e, st') => handler e st'
            end.
Definition emit (e : event) : M unit := fun st => (Returned tt, log e st).
Definition lib {A} (r : exn + A) : M A :=
  match r with inl e => raise e | inr a => ret a end.

Notation "'do' x <- m ; k" := (bind m (fun x => k))
  (at level 10, x name, m at level 100, k at level 200).
Notation "'run' m ; k" := (bind m (fun _ => k))
  (at level 10, m at level 100, k at level 200).

Definition glob (pattern : string) : M (list string) :=
  run emit (EvGlob pattern); ret (glob_glob pattern).

Definition deserialize (load : string -> exn + model) (model_filename : string)
  : M model :=
  run emit (EvDeserialize model_filename); lib (load model_filename).

(** The function under [@lru_cache]. *)
Definition load_trained_model_body : M loaded :=
  do xgb_models <- glob "/opt/ml/model/*_xgb";
  do rf_models <- glob "/opt/ml/model/*_rf";
  do kmeans_models <- glob "/opt/ml/model/*_kmeans";
  match xgb_models with
  | model_filename :: _ =>
      do reloaded_model <-
        deserialize (if GPU_INFERENCE_FLAG then ForestInference_load
                     else Booster_load_model) model_filename;
      ret (reloaded_model, "XGBoost", model_filename)
  | [] =>
      match rf_models with
      | model_filename :: _ =>
          do reloaded_model <- deserialize joblib_load model_filename;
          ret (reloaded_model, "RandomForest", model_filename)
      | [] =>
          match kmeans_models with
          | model_filename :: _ =>
              do reloaded_model <- deserialize joblib_load model_filename;
              ret (reloaded_model, "KMeans", model_filename)
          | [] => raise (Exception "! No trained models detected")
          end
      end
  end.

(** [functools.lru_cache] on a function without arguments: a hit returns
    the stored value, a miss runs the body and stores what it returns; a
    body that raises stores nothing. *)
Definition load_trained_model : M loaded :=
  fun st =>
    let st := log EvCall st in
    match lru st with
    | Some v => (Returned v, st)
    | None =>
        match load_trained_model_body st with
        | (Returned v, st') => (Returned v, {| lru := Some v; trace := trace st' |})
        | (Raised e, st') => (Raised e, st')
        end
    end.

(** A call of [reloaded_model.predict], on an argument that has been
    evaluated. *)
Definition call_predict (reloaded_model : model) (model_filename : string)
    (arg : input) : M ndarray :=
  run emit (EvPredict model_filename); lib (model_predict reloaded_model arg).

(** The [try] block of [predict], up to the final value of [predictions]. *)
Definition run_inference (xgboost_threshold : float) (reloaded_model : model)
    (model_type model_filename : string) (query_data : input) : M ndarray :=
  if String.eqb model_type "XGBoost" then
    do predictions <-
      (if GPU_INFERENCE_FLAG then
         call_predict reloaded_model model_filename query_data
       else
         do dm_deserialized_data <- lib (xgboost_DMatrix query_data);
         call_predict reloaded_model model_filename dm_deserialized_data);
    ret (threshold xgboost_threshold predictions)
  else if String.eqb model_type "RandomForest" then
    if contains "gpu" model_filename && negb GPU_INFERENCE_FLAG then
      raise (Exception
        "attempting to run CPU inference on a GPU trained RandomForest model")
    else
      do query_float32 <- lib (astype_float32 query_data);
      call_predict reloaded_model model_filename query_float32
  else if String.eqb model_type "KMeans" then
    if contains "gpu" model_filename && negb GPU_INFERENCE_FLAG then
      raise (Exception
        "attempting to run CPU inference on a GPU trained KMeans model")
    else
      do query_float32 <- lib (astype_float32 query_data);
      call_predict reloaded_model model_filename query_float32
  else
    (* no branch assigns [predictions]: reading it raises UnboundLocalError *)
    raise (Exception
      "cannot access local variable 'predictions' where it is not associated with a value").

(** The argument of [reloaded_model.predict] for a model type, evaluated
    before the call: the query wrapped in a DMatrix for XGBoost on a CPU,
    the query itself for XGBoost on a GPU, and the query cast to float32
    for the other models.  The conversions can raise. *)
Definition predict_argument (model_type : string) (query_data : input)
  : exn + input :=
  if String.eqb model_type "XGBoost" then
    if GPU_INFERENCE_FLAG then inr query_data else xgboost_DMatrix query_data
  else astype_float32 query_data.

Definition parse_failure : Response :=
  {| response :=
       Text "Unable to parse input data[ should be json/string encoded list of arrays ]";
     status := 415;
     mimetype := Some "text/csv" |}.

Definition inference_failure (inference_error : exn) : Response :=
  {| response := Text ("Inference failure: " +:+ exn_str inference_error +:+ nl);
     status := 400;
     mimetype := Some "text/csv" |}.

Definition predictions_response (predictions : ndarray) : Response :=
  {| response := JsonDumps predictions;
     status := 200;
     mimetype := Some "text/csv" |}.

(** The view of [POST /invocations]; [data] is [flask.request.get_data()]
    ([DEBUG_FLAG] is [False]). *)
Definition predict (xgboost_threshold : float) (data : string) : M Response :=
  match json_loads_array data with
  | inl _ => ret parse_failure
  | inr query_data =>
      do cached <- load_trained_model;
      let '(reloaded_model, model_type, model_filename) := cached in
      try_except
        (do predictions <-
           run_inference xgboost_threshold reloaded_model model_type
             model_filename query_data;
         ret (predictions_response predictions))
        (fun inference_error => ret (inference_failure inference_error))
  end.

(** The view of [GET /ping]. *)
Definition ping : M Response :=
  ret {| response := Text nl; status := 200; mimetype := None |}.

(** ** The Flask application *)

Inductive http_method := GET | HEAD | POST | PUT | DELETE | OPTIONS | PATCH.

#[global] Instance http_method_eq_dec : EqDecision http_method.
Proof. solve_decision. Defined.

(** The views of the script. *)
Inductive view := PingView | PredictView.

(** What a rule leads to: a view of the script, or the view Flask has of
    its own for static files. *)
Inductive endpoint_of_rule :=
| ScriptView (v : view)
| StaticFiles.

(** The path of a rule: a literal path, or a prefix followed by a
    [<path:filename>] part, which stands for any text that is not empty
    and does not start with a slash. *)
Inductive rule_pattern :=
| Literal (path : string)
| PathBelow (prefix : string).

Record rule := mkRule {
  rule_path : rule_pattern;
  rule_methods : list http_method;
  endpoint : endpoint_of_rule;
}.

(** [app.add_url_rule]: the rule serves the methods it is given, HEAD when
    GET is among them (werkzeug adds it) and OPTIONS (Flask adds it and
    answers it itself). *)
Definition add_url_rule (pattern : rule_pattern) (methods : list http_method)
    (e : endpoint_of_rule) (url_map : list rule) : list rule :=
  url_map
  ++ [mkRule pattern
        (methods ++ (if bool_decide (GET ∈ methods) then [HEAD] else [])
         ++ [OPTIONS]) e].

(** [Flask(__name__)]: the application starts with the rule of its static
    folder, [/static/<path:filename>]. *)
Definition Flask : list rule :=
  add_url_rule (PathBelow "/static/") [GET] StaticFiles [].

(** [@app.route(path, methods=...)] adds one rule to the application. *)
Definition route (path : string) (methods : list http_method) (v : view)
    (url_map : list rule) : list rule :=
  add_url_rule (Literal path) methods (ScriptView v) url_map.

(** The rules of the application [serve] runs: Flask's own, then those of
    the two decorators in their order. *)
Definition url_map : list rule :=
  route "/invocations" [POST] PredictView (route "/ping" [GET] PingView Flask).

Definition path_matches (pattern : rule_pattern) (path : string) : bool :=
  match pattern with
  | Literal p => String.eqb p path
  | PathBelow prefix =>
      String.prefix prefix path
      && (String.length prefix <? String.length path)%nat
      && negb (String.prefix (prefix +:+ "/") path)
  end.

(** Where a request goes: to a view of the script, to Flask's static
    files, to the OPTIONS answer Flask gives itself, or nowhere, when no
    rule has the path (404 or a redirect) or none of them has the method
    (405). *)
Inductive routing :=
| ToView (v : view)
| ToStatic
| AutomaticOptions
| MethodNotAllowed
| NoRule.

(** The routing of a request, by its method and its decoded path. *)
Definition dispatch (m : http_method) (path : string) : routing :=
  match List.filter (fun r => path_matches (rule_path r) path) url_map with
  | [] => NoRule
  | matching =>
      match List.find (fun r => bool_decide (m ∈ rule_methods r)) matching with
      | None => MethodNotAllowed
      | Some r =>
          if bool_decide (m = OPTIONS) then AutomaticOptions
          else match endpoint r with
               | ScriptView v => ToView v
               | StaticFiles => ToStatic
               end
      end
  end.

Record request := mkRequest {
  req_method : http_method;
  req_path : string;
  req_data : string;
}.

(** What a client gets: the response of a view of the script, Flask's own
    answer to an exception that left the view, or another answer of
    Flask's own making, for a request that reaches no view of the script
    (a static file, the answer to OPTIONS, 404, 405, a redirect). *)
Inductive reply :=
| Replied (r : Response)
| Unhandled (e : exn)
| NotRouted.

(** What is sent of a response: all of it, but no body in answer to a HEAD
    request. *)
Definition sent (m : http_method) (r : Response) : Response :=
  if bool_decide (m = HEAD)
  then {| response := Text ""; status := status r; mimetype := mimetype r |}
  else r.

Definition run_view (m : http_method) (v : M Response) (st : state)
  : reply * state :=
  match v st with
  | (Returned r, st') => (Replied (sent m r), st')
  | (Raised e, st') => (Unhandled e, st')
  end.

Definition handle (xgboost_threshold : float) (rq : request) (st : state)
  : reply * state :=
  match dispatch (req_method rq) (req_path rq) with
  | ToView PingView => run_view (req_method rq) ping st
  | ToView PredictView =>
      run_view (req_method rq) (predict xgboost_threshold (req_data rq)) st
  | ToStatic | AutomaticOptions | MethodNotAllowed | NoRule => (NotRouted, st)
  end.

(** [app.run]: the requests are served one after the other. *)
Fixpoint app_run (xgboost_threshold : float) (reqs : list request) (st : state)
  : list reply * state :=
  match reqs with
  | [] => ([], st)
  | rq :: reqs' =>
      let '(r, st1) := handle xgboost_threshold rq st in
      let '(rs, st2) := app_run xgboost_threshold reqs' st1 in
      (r :: rs, st2)
  end.

(** The last two statements of [serve]: the initial load, then the
    application serves the requests.  What [serve] does before them (the
    application object, the logging) and the ways [app.run] ends are not
    modelled. *)
Definition serve (xgboost_threshold : float) (reqs : list request)
  : M (list reply) :=
  do _ <- load_trained_model;
  fun st => let '(rs, st') := app_run xgboost_threshold reqs st in
            (Returned rs, st').

(** The default of [serve(xgboost_threshold=0.5)]. *)
Definition default_xgboost_threshold : float := 0.5%float.

(** Counters over the instrumentation. *)
Definition is_glob (e : event) : bool :=
  match e with EvGlob _ => true | _ => false end.
Definition is_deserialize (e : event) : bool :=
  match e with EvDeserialize _ => true | _ => false end.

Definition n_globs (st : state) : nat := length (List.filter is_glob (trace st)).
Definition n_deserialize (st : state) : nat :=
  length (List.filter is_deserialize (trace st)).

End Server.

Arguments state model : clear implicits.
Arguments loaded model : clear implicits.
Arguments M model A : clear implicits.
Arguments Returned {A} a.
Arguments Raised {A} e.

(** ** Sample backends *)

Definition sample_query : ndarray :=
  Array [Array [Scalar 1%float; Scalar 2%float]].

Definition sample_scores : ndarray :=
  Array [Scalar 0.75%float; Scalar 0.25%float].

(** numpy's conversion of a Python float to float32: rounding to the
    nearest number of 24 bits of precision, ties to even, with the
    exponent range of binary32. *)
Definition float32 (x : float) : float :=
  match Prim2SF x with
  | S754_finite s m e =>
      SF2Prim (binary_normalize 24 128 (if s then Z.neg m else Z.pos m) e s)
  | _ => x
  end.

(** [p > t] for an element [p] of a float32 array and a Python float [t],
    as numpy decides it: in float32. *)
Definition greater_float32 (p t : float) : bool :=
  PrimFloat.ltb (float32 t) (float32 p).

(** A CPU machine whose model directory is listed by [files]; with
    [corrupt], the XGBoost file cannot be read.  Two request bodies parse,
    one of them to an array of one dimension, of which no DMatrix can be
    made; the model answers with float32 scores. *)
Definition sample_backend (files : string -> list string) (corrupt : bool)
  : Backend unit ndarray :=
  {| GPU_INFERENCE_FLAG := false;
     glob_glob := files;
     ForestInference_load := fun _ => inr tt;
     Booster_load_model := fun _ =>
       if corrupt then inl (Exception "failed to load model") else inr tt;
     joblib_load := fun _ => inr tt;
     json_loads_array := fun data =>
       if String.eqb data "[[1.0, 2.0]]" then inr sample_query
       else if String.eqb data "[1.0, 2.0]"
       then inr (Array [Scalar 1%float; Scalar 2%float])
       else inl (Exception "Expecting value: line 1 column 1 (char 0)");
     xgboost_DMatrix := fun query_data =>
       match query_data with
       | Array (Array _ :: _) => inr query_data
       | _ => inl (Exception "Expecting 2 dimensional numpy.ndarray")
       end;
     astype_float32 := fun query_data => inr query_data;
     model_predict := fun _ _ => inr sample_scores;
     numpy_greater := greater_float32 |}.

Definition no_files (pattern : string) : list string := [].

Definition xgb_file (pattern : string) : list string :=
  if String.eqb pattern "/opt/ml/model/*_xgb" then ["/opt/ml/model/model_xgb"]
  else [].

Definition rf_file (pattern : string) : list string :=
  if String.eqb pattern "/opt/ml/model/*_rf" then ["/opt/ml/model/model_rf"]
  else [].

(** A model directory whose RandomForest file was trained on a GPU. *)
Definition gpu_rf_file (pattern : string) : list string :=
  if String.eqb pattern "/opt/ml/model/*_rf" then ["/opt/ml/model/gpu_rf"]
  else [].

Definition sample_request : request :=
  {| req_method := POST; req_path := "/invocations"; req_data := "[[1.0, 2.0]]" |}.

(** ** Properties of the server *)

Section ServerFacts.
Context {model input : Type} {B : Backend model input}.

Implicit Types (st : state model) (v : loaded model).

Ltac unfold_M :=
  unfold serve, predict, ping, run_inference, call_predict, load_trained_model_body,
    deserialize, glob, try_except, bind, emit, lib, ret, raise in *.

(** [st'] holds the cache of [st] and has asked for no more scans or
    deserializations. *)
Definition same_loads st st' : Prop :=
  lru st' = lru st /\ n_globs st' = n_globs st /\ n_deserialize st' = n_deserialize st.

Lemma same_loads_refl st : same_loads st st.
Proof. repeat split. Qed.

Lemma same_loads_trans st1 st2 st3 :
  same_loads st1 st2 -> same_loads st2 st3 -> same_loads st1 st3.
Proof.
  intros (a1 & a2 & a3) (b1 & b2 & b3).
  repeat split; congruence.
Qed.

Lemma n_globs_log e st :
  n_globs (log e st) = (n_globs st + if is_glob e then 1 else 0)%nat.
Proof.
  unfold n_globs, log; simpl. rewrite List.filter_app, List.length_app; simpl.
  destruct (is_glob e); reflexivity.
Qed.

Lemma n_deserialize_log e st :
  n_deserialize (log e st) =
  (n_deserialize st + if is_deserialize e then 1 else 0)%nat.
Proof.
  unfold n_deserialize, log; simpl. rewrite List.filter_app, List.length_app; simpl.
  destruct (is_deserialize e); reflexivity.
Qed.

Lemma same_loads_log e st :
  is_glob e = false -> is_deserialize e = false -> same_loads st (log e st).
Proof.
  intros Hg Hd. unfold same_loads.
  rewrite n_globs_log, n_deserialize_log, Hg, Hd. simpl. repeat split; lia.
Qed.

(** A cache hit: the stored value, and nothing but the call is recorded. *)
Lemma load_trained_model_hit st v :
  lru st = Some v -> load_trained_model st = (Returned v, log EvCall st).
Proof.
  intros H. unfold load_trained_model. simpl. rewrite H. reflexivity.
Qed.

Lemma run_inference_same_loads thr m ty f q st :
  same_loads st (snd (run_inference thr m ty f q st)).
Proof.
  unfold_M.
  repeat match goal with
         | |- context [if ?c then _ else _] => destruct c
         | |- context [match ?x with inl _ => _ | inr _ => _ end] => destruct x
         end; simpl;
    first [ apply same_loads_refl | apply same_loads_log; reflexivity ].
Qed.

Lemma predict_same_loads thr data st :
  is_Some (lru st) -> same_loads st (snd (predict thr data st)).
Proof.
  intros [v Hv]. unfold predict.
  destruct (json_loads_array data) as [e | q]; [apply same_loads_refl |].
  unfold bind. rewrite (load_trained_model_hit _ _ Hv).
  destruct v as [[m ty] f]. unfold try_except, bind.
  pose proof (run_inference_same_loads thr m ty f q (log EvCall st)) as H.
  destruct (run_inference thr m ty f q (log EvCall st)) as [[p | e] st1]; simpl in *;
    (apply (same_loads_trans st (log EvCall st));
     [apply same_loads_log; reflexivity | exact H]).
Qed.

Lemma handle_same_loads thr rq st :
  is_Some (lru st) -> same_loads st (snd (handle thr rq st)).
Proof.
  intros Hv. unfold handle.
  destruct (dispatch (req_method rq) (req_path rq)) as [[|] | | | |]; simpl;
    try apply same_loads_refl.
  unfold run_view.
  pose proof (predict_same_loads thr (req_data rq) st Hv) as H.
  destruct (predict thr (req_data rq) st) as [[r | e] st1]; exact H.
Qed.

Lemma app_run_same_loads thr reqs st :
  is_Some (lru st) -> same_loads st (snd (app_run thr reqs st)).
Proof.
  revert st. induction reqs as [| rq reqs IH]; intros st Hv; simpl.
  - apply same_loads_refl.
  - pose proof (handle_same_loads thr rq st Hv) as H1.
    destruct (handle thr rq st) as [r st1]; simpl in H1.
    assert (Hv1 : is_Some (lru st1)) by (destruct H1 as [-> _]; exact Hv).
    specialize (IH st1 Hv1).
    destruct (app_run thr reqs st1) as [rs st2]; simpl in *.
    eapply same_loads_trans; eassumption.
Qed.

Lemma app_run_length thr reqs st :
  length (fst (app_run thr reqs st)) = length reqs.
Proof.
  revert st. induction reqs as [| rq reqs IH]; intros st; simpl; [reflexivity |].
  destruct (handle thr rq st) as [r st1].
  specialize (IH st1). destruct (app_run thr reqs st1) as [rs st2]; simpl in *.
  congruence.
Qed.

(** A cache miss runs the body once: three globs, at most one
    deserialization, exactly one when it returns, and then the value is
    stored. *)
Lemma load_trained_model_miss st :
  lru st = None ->
  match load_trained_model st with
  | (Returned v, st') =>
      lru st' = Some v /\ n_globs st' = (n_globs st + 3)%nat /\ n_deserialize st' = (n_deserialize st + 1)%nat
  | (Raised e, st') =>
      lru st' = None /\ n_globs st' = (n_globs st + 3)%nat /\ (n_deserialize st' <= n_deserialize st + 1)%nat
  end.
Proof.
  intros H. unfold load_trained_model. simpl. rewrite H. unfold_M.
  destruct (glob_glob "/opt/ml/model/*_xgb") as [| f1 r1];
    [destruct (glob_glob "/opt/ml/model/*_rf") as [| f2 r2];
      [destruct (glob_glob "/opt/ml/model/*_kmeans") as [| f3 r3] | ] | ];
    repeat match goal with
           | |- context [match ?x with inl _ => _ | inr _ => _ end] => destruct x
           | |- context [if ?c then _ else _] => destruct c
           end; simpl;
    unfold n_globs, n_deserialize; simpl;
    repeat rewrite ?List.filter_app, ?List.length_app; simpl;
    repeat split; try exact H; lia.
Qed.

Lemma threshold_elem_binary thr p :
  threshold_elem thr p = 0%float \/ threshold_elem thr p = 1%float.
Proof.
  unfold threshold_elem. destruct (numpy_greater p thr); [right | left]; reflexivity.
Qed.

Fixpoint nd_all_map (P : float -> Prop) (f : float -> float)
    (H : forall x, P (f x)) (a : ndarray) {struct a} : nd_all P (nd_map f a).
Proof.
  destruct a as [x | xs]; simpl.
  - apply H.
  - induction xs as [| b xs IH]; simpl.
    + exact I.
    + split; [apply nd_all_map; exact H | exact IH].
Qed.

Lemma nd_map_ext (f g : float -> float) (H : forall x, f x = g x) (a : ndarray) :
  nd_map f a = nd_map g a.
Proof.
  revert a. fix IH 1. intros [x | xs]; simpl.
  - rewrite H. reflexivity.
  - f_equal. induction xs as [| b xs IHxs]; simpl; [reflexivity |].
    rewrite IH, IHxs. reflexivity.
Qed.

(** Thresholding, element by element: 1.0 where numpy finds the score
    greater than the threshold, 0.0 elsewhere. *)
Lemma threshold_spelled thr raw :
  threshold thr raw =
  nd_map (fun p => if numpy_greater p thr then 1%float else 0%float) raw.
Proof.
  unfold threshold. apply nd_map_ext. intros p. unfold threshold_elem.
  destruct (numpy_greater p thr); reflexivity.
Qed.

(** What [predict] does once the body is parsed and the model is at hand. *)
Lemma predict_parsed thr data q st v st1 :
  json_loads_array data = inr q ->
  load_trained_model st = (Returned v, st1) ->
  predict thr data st =
  match run_inference thr v.1.1 v.1.2 v.2 q st1 with
  | (Returned p, st2) => (Returned (predictions_response p), st2)
  | (Raised e, st2) => (Returned (inference_failure e), st2)
  end.
Proof.
  intros Hq Hl. unfold predict. rewrite Hq. unfold bind at 1. rewrite Hl.
  destruct v as [[m ty] f]; simpl. unfold try_except, bind, ret.
  destruct (run_inference thr m ty f q st1) as [[p | e] st2]; reflexivity.
Qed.

(** The value [run_inference] returns is what the model's [predict] gave
    on the converted query, thresholded for XGBoost and untouched
    otherwise. *)
Lemma run_inference_returned thr m ty f q st p st' :
  run_inference thr m ty f q st = (Returned p, st') ->
  exists arg raw,
    predict_argument ty q = inr arg /\
    model_predict m arg = inr raw /\
    p = if String.eqb ty "XGBoost" then threshold thr raw else raw.
Proof.
  unfold run_inference, predict_argument, call_predict, bind, emit, lib, ret, raise.
  destruct (String.eqb ty "XGBoost").
  - destruct GPU_INFERENCE_FLAG.
    + destruct (model_predict m q) as [e | raw] eqn:E; intros [= <- <-].
      exists q, raw. auto.
    + destruct (xgboost_DMatrix q) as [e | dm] eqn:Ed; [intros [=] |].
      destruct (model_predict m dm) as [e | raw] eqn:E; intros [= <- <-].
      exists dm, raw. auto.
  - destruct (String.eqb ty "RandomForest");
      [| destruct (String.eqb ty "KMeans"); [| intros [=]]];
      (destruct (contains "gpu" f && negb GPU_INFERENCE_FLAG); [intros [=] |];
       destruct (astype_float32 q) as [e | q32] eqn:Ea; [intros [=] |];
       destruct (model_predict m q32) as [e | raw] eqn:E; intros [= <- <-];
       exists q32, raw; auto).
Qed.

(** A response of status 200 comes from a parsed body, a conversion that
    returned and an inference that returned. *)
Lemma predict_ok_inversion thr data st m ty f r st' :
  fst (load_trained_model st) = Returned (m, ty, f) ->
  predict thr data st = (Returned r, st') ->
  status r = 200%Z ->
  exists q arg raw,
    json_loads_array data = inr q /\
    predict_argument ty q = inr arg /\
    model_predict m arg = inr raw /\
    response r = JsonDumps (if String.eqb ty "XGBoost" then threshold thr raw else raw).
Proof.
  intros Hl Hp Hs.
  destruct (json_loads_array data) as [e | q] eqn:Hq.
  - unfold predict in Hp. rewrite Hq in Hp. injection Hp as <- <-. discriminate Hs.
  - destruct (load_trained_model st) as [o st1] eqn:El. simpl in Hl. subst o.
    rewrite (predict_parsed _ _ _ _ _ _ Hq El) in Hp. simpl in Hp.
    destruct (run_inference thr m ty f q st1) as [[p | e] st2] eqn:Er.
    + injection Hp as <- <-.
      destruct (run_inference_returned _ _ _ _ _ _ _ _ Er) as (arg & raw & Ha & Hm & ->).
      exists q, arg, raw. auto.
    + injection Hp as <- <-. discriminate Hs.
Qed.

(** C1 (as amended): the scan and the deserialization happen exactly once
    in a process that serves, during the start of [serve] and before any
    request is handled; every later call of [load_trained_model], also
    after any number of requests, returns the same triple and loads
    nothing.  When the initial load raises, [serve] raises and no request
    is served. *)
Theorem load_once_at_startup (thr : float) (reqs : list request) :
  match serve thr reqs init with
  | (Returned replies, st') =>
      exists v st1,
        load_trained_model init = (Returned v, st1) /\
        n_globs st1 = 3%nat /\ n_deserialize st1 = 1%nat /\
        length replies = length reqs /\
        lru st' = Some v /\
        n_globs st' = 3%nat /\ n_deserialize st' = 1%nat /\
        load_trained_model st' = (Returned v, log EvCall st')
  | (Raised e, st') =>
      load_trained_model init = (Raised e, st') /\
      n_globs st' = 3%nat /\ (n_deserialize st' <= 1)%nat
  end.
Proof.
  unfold serve, bind.
  pose proof (load_trained_model_miss init eq_refl) as Hm.
  destruct (load_trained_model init) as [[v | e] st1].
  - destruct Hm as (Hc & Hg & Hd).
    pose proof (app_run_same_loads thr reqs st1 ltac:(rewrite Hc; eauto)) as Hs.
    pose proof (app_run_length thr reqs st1) as Hlen.
    destruct (app_run thr reqs st1) as [rs st2]; simpl in *.
    destruct Hs as (Hc2 & Hg2 & Hd2).
    exists v, st1. rewrite Hc2, Hg2, Hd2.
    repeat split; try assumption.
    apply load_trained_model_hit. congruence.
  - destruct Hm as (_ & Hg & Hd). repeat split; assumption.
Qed.

(** C2 (as amended): when a request is answered with status 200, its body
    parsed, the conversion of the query returned, the model's [predict]
    returned an array on it, and the response body is the JSON of that
    array unchanged for RandomForest and KMeans, and of that array compared
    elementwise with [xgboost_threshold], as numpy compares, for
    XGBoost. *)
Theorem predict_success_body thr data st m ty f r st' :
  fst (load_trained_model st) = Returned (m, ty, f) ->
  predict thr data st = (Returned r, st') ->
  status r = 200%Z ->
  exists q arg raw,
    json_loads_array data = inr q /\
    predict_argument ty q = inr arg /\
    model_predict m arg = inr raw /\
    response r =
      JsonDumps
        (if String.eqb ty "XGBoost"
         then nd_map (fun p => if numpy_greater p thr then 1%float else 0%float) raw
         else raw).
Proof.
  intros Hl Hp Hs.
  destruct (predict_ok_inversion thr data st m ty f r st' Hl Hp Hs)
    as (q & arg & raw & Hq & Ha & Hm & Hr).
  exists q, arg, raw. repeat split; try assumption.
  rewrite Hr. destruct (String.eqb ty "XGBoost"); [| reflexivity].
  f_equal. apply threshold_spelled.
Qed.

(** C3 (as amended): [predict] turns failures into responses.  A body
    that does not parse is answered with status 415; an exception raised
    while running inference is answered with status 400 and the body
    "Inference failure: <error>"; the only exception that leaves the view is
    one raised by [load_trained_model], which cannot happen once the cache
    is filled. *)
Theorem predict_failures_become_responses thr data st :
  (forall e, json_loads_array data = inl e ->
     fst (predict thr data st) = Returned parse_failure) /\
  (forall q v st1 e st2,
     json_loads_array data = inr q ->
     load_trained_model st = (Returned v, st1) ->
     run_inference thr v.1.1 v.1.2 v.2 q st1 = (Raised e, st2) ->
     predict thr data st = (Returned (inference_failure e), st2)) /\
  (forall e, fst (predict thr data st) = Raised e ->
     (exists q, json_loads_array data = inr q) /\
     fst (load_trained_model st) = Raised e) /\
  (is_Some (lru st) -> exists r, fst (predict thr data st) = Returned r).
Proof.
  assert (Hraise : forall e, fst (predict thr data st) = Raised e ->
     (exists q, json_loads_array data = inr q) /\
     fst (load_trained_model st) = Raised e).
  { intros e He.
    destruct (json_loads_array data) as [e0 | q] eqn:Hq.
    - unfold predict in He. rewrite Hq in He. discriminate He.
    - split; [eauto |].
      destruct (load_trained_model st) as [[v | e1] st1] eqn:El.
      + rewrite (predict_parsed _ _ _ _ _ _ Hq El) in He.
        destruct (run_inference thr v.1.1 v.1.2 v.2 q st1) as [[p | e2] st2];
          discriminate He.
      + unfold predict, bind in He. rewrite Hq, El in He.
        simpl in He |- *. injection He as ->. reflexivity. }
  split; [| split; [| split]].
  - intros e He. unfold predict. rewrite He. reflexivity.
  - intros q v st1 e st2 Hq Hl Hr.
    rewrite (predict_parsed _ _ _ _ _ _ Hq Hl), Hr. reflexivity.
  - exact Hraise.
  - intros [v Hv].
    destruct (predict thr data st) as [[r | e] st1] eqn:Ep; [eauto |].
    destruct (Hraise e) as [_ Hl]; [reflexivity |].
    rewrite (load_trained_model_hit _ _ Hv) in Hl. discriminate Hl.
Qed.

(** The routing of a request, spelled out by its path. *)
Lemma dispatch_spelled (m : http_method) (path : string) :
  dispatch m path =
    if String.eqb "/ping" path then
      match m with
      | GET | HEAD => ToView PingView
      | OPTIONS => AutomaticOptions
      | _ => MethodNotAllowed
      end
    else if String.eqb "/invocations" path then
      match m with
      | POST => ToView PredictView
      | OPTIONS => AutomaticOptions
      | _ => MethodNotAllowed
      end
    else if path_matches (PathBelow "/static/") path then
      match m with
      | GET | HEAD => ToStatic
      | OPTIONS => AutomaticOptions
      | _ => MethodNotAllowed
      end
    else NoRule.
Proof.
  unfold dispatch, url_map, route, Flask, add_url_rule.
  cbn [app List.filter rule_path].
  set (b := path_matches (PathBelow "/static/") path).
  assert (Hb : b = path_matches (PathBelow "/static/") path) by reflexivity.
  cbn [path_matches].
  destruct (String.eqb_spec "/ping" path) as [<- | Hp];
    [| destruct (String.eqb_spec "/invocations" path) as [<- | Hi]].
  - vm_compute in Hb. subst b. destruct m; reflexivity.
  - vm_compute in Hb. subst b. destruct m; reflexivity.
  - clear Hb. destruct b; destruct m; reflexivity.
Qed.

(** C4: the application holds three rules, Flask's own
    [/static/<path:filename>] and the two the script registers with
    [app.route], [/ping] and [/invocations]; a request reaches a view of
    the script exactly through one of the two: [ping] by GET or HEAD on
    [/ping], [predict] by POST on [/invocations].  Static files are reached
    only by GET or HEAD below [/static/], and OPTIONS on either path of the
    script is answered by Flask. *)
Theorem routes_of_the_application :
  List.map (fun r => (rule_path r, endpoint r)) url_map =
    [(PathBelow "/static/", StaticFiles);
     (Literal "/ping", ScriptView PingView);
     (Literal "/invocations", ScriptView PredictView)] /\
  (forall (m : http_method) (path : string) (v : view),
     dispatch m path = ToView v <->
     ((m = GET \/ m = HEAD) /\ path = "/ping" /\ v = PingView) \/
     (m = POST /\ path = "/invocations" /\ v = PredictView)) /\
  (forall (m : http_method) (path : string),
     dispatch m path = ToStatic ->
     (m = GET \/ m = HEAD) /\ String.prefix "/static/" path = true) /\
  dispatch OPTIONS "/ping" = AutomaticOptions /\
  dispatch OPTIONS "/invocations" = AutomaticOptions.
Proof.
  split; [reflexivity |].
  split; [| split; [| split; reflexivity]].
  - intros m path v. rewrite dispatch_spelled.
    destruct (String.eqb_spec "/ping" path) as [<- | Hp];
      [| destruct (String.eqb_spec "/invocations" path) as [<- | Hi];
         [| destruct (path_matches (PathBelow "/static/") path)]];
      destruct m; split;
        first [ intros [= <-] | intros [= ]
              | intros [([Hm | Hm] & Hq & Hv) | (Hm & Hq & Hv)]; subst ];
        try discriminate; try congruence; auto.
  - intros m path. rewrite dispatch_spelled.
    destruct (String.eqb_spec "/ping" path) as [<- | Hp];
      [destruct m; intros [=] |].
    destruct (String.eqb_spec "/invocations" path) as [<- | Hi];
      [destruct m; intros [=] |].
    destruct (path_matches (PathBelow "/static/") path) eqn:Hs;
      [| intros [=]].
    unfold path_matches in Hs.
    apply andb_prop in Hs as [Hs _]. apply andb_prop in Hs as [Hs _].
    destruct m; intros [=]; auto.
Qed.

(** C6: when the request body does not parse, the view answers 415 with
    the fixed message and leaves the server state as it was: the cache is
    not consulted, nothing is loaded, no inference is run. *)
Theorem predict_parse_failure thr data st e :
  json_loads_array data = inl e ->
  predict thr data st = (Returned parse_failure, st) /\
  status parse_failure = 415%Z /\
  response parse_failure =
    Text "Unable to parse input data[ should be json/string encoded list of arrays ]".
Proof.
  intros He. unfold predict. rewrite He. repeat split.
Qed.

(** C7 (as amended): on a cache miss the model is chosen by precedence:
    the first [*_xgb] file if there is one, else the first [*_rf] file,
    else the first [*_kmeans] file; the call returns the deserialized
    model with its type and file name, or raises what the deserialization
    of the chosen file raised.  With no file for any pattern it raises
    "! No trained models detected". *)
Theorem load_trained_model_precedence st :
  lru st = None ->
  let xgb_load :=
    if GPU_INFERENCE_FLAG then ForestInference_load else Booster_load_model in
  let loading (load : string -> exn + model) (ty f : string) :=
    match load f with
    | inr m => Returned (m, ty, f)
    | inl e => Raised e
    end in
  fst (load_trained_model st) =
  match glob_glob "/opt/ml/model/*_xgb",
        glob_glob "/opt/ml/model/*_rf",
        glob_glob "/opt/ml/model/*_kmeans" with
  | f :: _, _, _ => loading xgb_load "XGBoost" f
  | [], f :: _, _ => loading joblib_load "RandomForest" f
  | [], [], f :: _ => loading joblib_load "KMeans" f
  | [], [], [] => Raised (Exception "! No trained models detected")
  end.
Proof.
  intros H xgb_load loading. unfold load_trained_model. simpl. rewrite H.
  unfold load_trained_model_body, glob, deserialize, bind, emit, lib, ret, raise.
  subst xgb_load loading. simpl.
  destruct (glob_glob "/opt/ml/model/*_xgb") as [| f1 r1];
    [destruct (glob_glob "/opt/ml/model/*_rf") as [| f2 r2];
      [destruct (glob_glob "/opt/ml/model/*_kmeans") as [| f3 r3] | ] | ];
    try reflexivity;
    repeat match goal with
           | |- context [match ?x with inl _ => _ | inr _ => _ end] => destruct x
           end; reflexivity.
Qed.

(** C8: with an XGBoost model loaded, a response of status 200 carries the
    output of the model's [predict] compared with the threshold: each
    element is 1.0 where numpy finds the score greater than
    [xgboost_threshold] and 0.0 elsewhere, so every element is 0.0 or 1.0;
    with the default of [serve] the scores are compared with 0.5. *)
Theorem xgboost_predictions_binary thr data st m f r st' :
  fst (load_trained_model st) = Returned (m, "XGBoost", f) ->
  predict thr data st = (Returned r, st') ->
  status r = 200%Z ->
  exists q arg raw predictions,
    json_loads_array data = inr q /\
    (if GPU_INFERENCE_FLAG then inr q else xgboost_DMatrix q) = inr arg /\
    model_predict m arg = inr raw /\
    predictions =
      nd_map (fun p => if numpy_greater p thr then 1%float else 0%float) raw /\
    response r = JsonDumps predictions /\
    nd_all (fun x => x = 0%float \/ x = 1%float) predictions /\
    (thr = default_xgboost_threshold ->
     predictions =
       nd_map (fun p => if numpy_greater p 0.5%float then 1%float else 0%float) raw).
Proof.
  intros Hl Hp Hs.
  destruct (predict_ok_inversion thr data st m "XGBoost" f r st' Hl Hp Hs)
    as (q & arg & raw & Hq & Ha & Hm & Hr).
  simpl in Hr. unfold predict_argument in Ha. simpl in Ha.
  exists q, arg, raw, (threshold thr raw).
  rewrite <- threshold_spelled.
  repeat split; try assumption; try reflexivity.
  - apply nd_all_map. apply threshold_elem_binary.
  - intros ->. apply threshold_spelled.
Qed.

End ServerFacts.

(** ** The server on the sample backends *)

(** The load is not deferred to a request: [serve] has scanned the model
    directory and deserialized the model, and holds it in the cache, when
    no request has been served yet. *)
Lemma load_happens_before_any_request :
  n_globs (snd (serve (B := sample_backend xgb_file false)
                  default_xgboost_threshold [] init)) = 3%nat /\
  n_deserialize (snd (serve (B := sample_backend xgb_file false)
                        default_xgboost_threshold [] init)) = 1%nat /\
  lru (snd (serve (B := sample_backend xgb_file false)
              default_xgboost_threshold [] init)) =
    Some (tt, "XGBoost", "/opt/ml/model/model_xgb").
Proof. repeat split. Qed.

(** Two requests: the directory is scanned and the model deserialized
    at the start, and each request only asks the cache and the model. *)
Example serve_trace :
  trace (snd (serve (B := sample_backend xgb_file false)
                default_xgboost_threshold [sample_request; sample_request] init)) =
  [ EvCall;
    EvGlob "/opt/ml/model/*_xgb";
    EvGlob "/opt/ml/model/*_rf";
    EvGlob "/opt/ml/model/*_kmeans";
    EvDeserialize "/opt/ml/model/model_xgb";
    EvCall; EvPredict "/opt/ml/model/model_xgb";
    EvCall; EvPredict "/opt/ml/model/model_xgb" ].
Proof. reflexivity. Qed.

(** With an XGBoost model the body of the response is not the JSON of what
    the model's [predict] returned: the scores 0.75 and 0.25 are answered
    as 1.0 and 0.0. *)
Lemma xgboost_body_is_not_model_output :
  fst (serve (B := sample_backend xgb_file false)
         default_xgboost_threshold [sample_request] init) =
    Returned [Replied (predictions_response
                         (Array [Scalar 1%float; Scalar 0%float]))] /\
  xgboost_DMatrix (Backend := sample_backend xgb_file false) sample_query =
    inr sample_query /\
  model_predict (Backend := sample_backend xgb_file false) tt sample_query =
    inr sample_scores /\
  JsonDumps (Array [Scalar 1%float; Scalar 0%float]) <> JsonDumps sample_scores.
Proof.
  repeat split.
  intros H.
  apply (f_equal (fun b => match b with
                           | JsonDumps (Array (Scalar x :: _)) => PrimFloat.ltb x 1%float
                           | _ => false
                           end)) in H.
  discriminate H.
Qed.

(** The comparison is numpy's, not that of Python floats: the float32
    score nearest to 0.14102077 is greater than 0.14102077 as a Python
    float, and not greater than the threshold 0.14102077 in the array. *)
#[warnings="-inexact-float"]
Example threshold_in_float32 :
  PrimFloat.ltb 0.14102077%float (float32 0.14102077%float) = true /\
  threshold (B := sample_backend xgb_file false) 0.14102077%float
    (Array [Scalar (float32 0.14102077%float)]) = Array [Scalar 0%float].
Proof. split; reflexivity. Qed.

(** The application does not hold two rules only: Flask's rule for static
    files is the first of three, a GET request below [/static/] is routed
    to Flask's own view, and OPTIONS is accepted on the paths of the
    script, where Flask answers it. *)
Lemma flask_serves_more_than_two_routes :
  length url_map = 3%nat /\
  List.map rule_path url_map =
    [PathBelow "/static/"; Literal "/ping"; Literal "/invocations"] /\
  dispatch GET "/static/style.css" = ToStatic /\
  dispatch OPTIONS "/ping" = AutomaticOptions /\
  dispatch OPTIONS "/invocations" = AutomaticOptions.
Proof. repeat split. Qed.

(** A RandomForest model: the scores are answered as they are. *)
Lemma predict_success_body_witness :
  exists q arg raw,
    json_loads_array (Backend := sample_backend rf_file false) "[[1.0, 2.0]]" = inr q /\
    predict_argument (B := sample_backend rf_file false) "RandomForest" q =
      inr arg /\
    model_predict (Backend := sample_backend rf_file false) tt arg = inr raw /\
    response (predictions_response sample_scores) =
      JsonDumps (if String.eqb "RandomForest" "XGBoost"
                 then nd_map (fun p =>
                        if numpy_greater (Backend := sample_backend rf_file false)
                             p default_xgboost_threshold
                        then 1%float else 0%float) raw
                 else raw).
Proof.
  eapply (predict_success_body (B := sample_backend rf_file false)
            default_xgboost_threshold "[[1.0, 2.0]]" init tt "RandomForest"
            "/opt/ml/model/model_rf" (predictions_response sample_scores));
    reflexivity.
Defined.

(** Neither failure leaves the view: a body that does not parse is
    answered with 415, and the exception raised in the inference block (a
    GPU trained forest on a CPU machine) is answered with 400. *)
Lemma failures_are_answered :
  json_loads_array (Backend := sample_backend xgb_file false) "not json" =
    inl (Exception "Expecting value: line 1 column 1 (char 0)") /\
  fst (predict (B := sample_backend xgb_file false)
         default_xgboost_threshold "not json" init) = Returned parse_failure /\
  fst (predict (B := sample_backend gpu_rf_file false)
         default_xgboost_threshold "[[1.0, 2.0]]" init) =
    Returned (inference_failure (Exception
      "attempting to run CPU inference on a GPU trained RandomForest model")) /\
  status (inference_failure (Exception
      "attempting to run CPU inference on a GPU trained RandomForest model")) = 400%Z.
Proof. repeat split. Qed.

(** A body that is not JSON, on a server that has loaded nothing yet. *)
Lemma predict_parse_failure_witness :
  predict (B := sample_backend xgb_file false) default_xgboost_threshold
    "not json" init = (Returned parse_failure, init) /\
  status parse_failure = 415%Z /\
  response parse_failure =
    Text "Unable to parse input data[ should be json/string encoded list of arrays ]".
Proof.
  apply (predict_parse_failure (B := sample_backend xgb_file false)
           default_xgboost_threshold "not json" init
           (Exception "Expecting value: line 1 column 1 (char 0)")).
  reflexivity.
Defined.

(** A file matches [*_xgb], and [load_trained_model] raises all the same:
    the file cannot be deserialized. *)
Lemma load_raises_with_a_model_file :
  glob_glob (Backend := sample_backend xgb_file true) "/opt/ml/model/*_xgb" =
    ["/opt/ml/model/model_xgb"] /\
  fst (load_trained_model (B := sample_backend xgb_file true) init) =
    Raised (Exception "failed to load model").
Proof. split; reflexivity. Qed.

(** An empty model directory. *)
Lemma load_without_files :
  fst (load_trained_model (B := sample_backend no_files false) init) =
    Raised (Exception "! No trained models detected").
Proof. reflexivity. Qed.

(** The RandomForest file is taken when there is no XGBoost file. *)
Lemma load_trained_model_precedence_witness :
  fst (load_trained_model (B := sample_backend rf_file false) init) =
    Returned (tt, "RandomForest", "/opt/ml/model/model_rf").
Proof.
  exact (load_trained_model_precedence (B := sample_backend rf_file false)
           init eq_refl).
Defined.

(** The scores 0.75 and 0.25 of the XGBoost model, at threshold 0.5. *)
Lemma xgboost_predictions_binary_witness :
  exists q arg raw predictions,
    json_loads_array (Backend := sample_backend xgb_file false) "[[1.0, 2.0]]" =
      inr q /\
    (if GPU_INFERENCE_FLAG (Backend := sample_backend xgb_file false)
     then inr q
     else xgboost_DMatrix (Backend := sample_backend xgb_file false) q) =
      inr arg /\
    model_predict (Backend := sample_backend xgb_file false) tt arg = inr raw /\
    predictions =
      nd_map (fun p =>
        if numpy_greater (Backend := sample_backend xgb_file false)
             p default_xgboost_threshold
        then 1%float else 0%float) raw /\
    response (predictions_response (Array [Scalar 1%float; Scalar 0%float])) =
      JsonDumps predictions /\
    nd_all (fun x => x = 0%float \/ x = 1%float) predictions /\
    (default_xgboost_threshold = default_xgboost_threshold ->
     predictions =
       nd_map (fun p =>
         if numpy_greater (Backend := sample_backend xgb_file false) p 0.5%float
         then 1%float else 0%float) raw).
Proof.
  eapply (xgboost_predictions_binary (B := sample_backend xgb_file false)
            default_xgboost_threshold "[[1.0, 2.0]]" init tt
            "/opt/ml/model/model_xgb"
            (predictions_response (Array [Scalar 1%float; Scalar 0%float])));
    reflexivity.
Defined.

(** ** More on the views *)

Definition is_predict (e : event) : bool :=
  match e with EvPredict _ => true | _ => false end.

(** How often the model's [predict] was called. *)
Definition n_predict {model : Type} (st : state model) : nat :=
  length (List.filter is_predict (trace st)).

(** The shape of an array: its nesting, without the numbers. *)
#[warnings="-register-all"]
Inductive shape :=
| Item
| Nested (l : list shape).

Fixpoint nd_shape (a : ndarray) : shape :=
  match a with
  | Scalar _ => Item
  | Array xs => Nested (List.map nd_shape xs)
  end.

(** A reply that is a response of the script's own making, or an answer
    of Flask's own to a request that reaches no view of the script: no
    exception has left a view. *)
Definition answered (rp : reply) : Prop :=
  match rp with
  | Replied r => status r = 200%Z \/ status r = 400%Z \/ status r = 415%Z
  | Unhandled _ => False
  | NotRouted => True
  end.

Section ServerMore.
Context {model input : Type} {B : Backend model input}.

Implicit Types (st : state model) (v : loaded model).

(** The value of the inference block does not depend on the state. *)
Lemma run_inference_value thr m ty f q st1 st2 :
  fst (run_inference thr m ty f q st1) = fst (run_inference thr m ty f q st2).
Proof.
  unfold run_inference, call_predict, bind, emit, lib, ret, raise.
  repeat match goal with
         | |- context [if ?c then _ else _] => destruct c
         | |- context [match ?x with inl _ => _ | inr _ => _ end] => destruct x
         end; reflexivity.
Qed.

Lemma predict_value thr data st1 st2 v :
  lru st1 = Some v -> lru st2 = Some v ->
  fst (predict thr data st1) = fst (predict thr data st2).
Proof.
  intros H1 H2.
  destruct (json_loads_array data) as [e | q] eqn:Hq.
  - unfold predict. rewrite Hq. reflexivity.
  - rewrite (predict_parsed thr data q st1 v _ Hq (load_trained_model_hit st1 v H1)).
    rewrite (predict_parsed thr data q st2 v _ Hq (load_trained_model_hit st2 v H2)).
    pose proof (run_inference_value thr v.1.1 v.1.2 v.2 q
                  (log EvCall st1) (log EvCall st2)) as Hv.
    destruct (run_inference thr v.1.1 v.1.2 v.2 q (log EvCall st1)) as [[p1 | e1] s1];
      destruct (run_inference thr v.1.1 v.1.2 v.2 q (log EvCall st2)) as [[p2 | e2] s2];
      simpl in Hv; try discriminate Hv; injection Hv as ->; reflexivity.
Qed.

Lemma handle_value thr rq st1 st2 v :
  lru st1 = Some v -> lru st2 = Some v ->
  fst (handle thr rq st1) = fst (handle thr rq st2).
Proof.
  intros H1 H2. unfold handle.
  destruct (dispatch (req_method rq) (req_path rq)) as [[|] | | | |];
    try reflexivity.
  unfold run_view.
  pose proof (predict_value thr (req_data rq) st1 st2 v H1 H2) as Hv.
  destruct (predict thr (req_data rq) st1) as [[r1 | e1] s1];
    destruct (predict thr (req_data rq) st2) as [[r2 | e2] s2];
    simpl in Hv; try discriminate Hv; injection Hv as ->; reflexivity.
Qed.

Lemma app_run_value thr reqs st1 st2 v :
  lru st1 = Some v -> lru st2 = Some v ->
  fst (app_run thr reqs st1) = fst (app_run thr reqs st2).
Proof.
  revert st1 st2. induction reqs as [| rq reqs IH]; intros st1 st2 H1 H2; simpl;
    [reflexivity |].
  pose proof (handle_value thr rq st1 st2 v H1 H2) as Hv.
  pose proof (handle_same_loads thr rq st1 ltac:(rewrite H1; eauto)) as (Hc1 & _).
  pose proof (handle_same_loads thr rq st2 ltac:(rewrite H2; eauto)) as (Hc2 & _).
  destruct (handle thr rq st1) as [r1 s1]; destruct (handle thr rq st2) as [r2 s2].
  simpl in *. subst r2.
  specialize (IH s1 s2 ltac:(congruence) ltac:(congruence)).
  destruct (app_run thr reqs s1) as [rs1 t1]; destruct (app_run thr reqs s2) as [rs2 t2].
  simpl in *. congruence.
Qed.

Lemma app_run_app thr reqs1 reqs2 st :
  app_run thr (reqs1 ++ reqs2) st =
  (fst (app_run thr reqs1 st) ++ fst (app_run thr reqs2 (snd (app_run thr reqs1 st))),
   snd (app_run thr reqs2 (snd (app_run thr reqs1 st)))).
Proof.
  revert st. induction reqs1 as [| rq reqs1 IH]; intros st; simpl.
  - destruct (app_run thr reqs2 st); reflexivity.
  - destruct (handle thr rq st) as [r s1]. rewrite IH.
    destruct (app_run thr reqs1 s1) as [rs1 s2]; reflexivity.
Qed.

Lemma sent_status (m : http_method) (r : Response) :
  status (sent m r) = status r.
Proof. unfold sent. destruct (bool_decide (m = HEAD)); reflexivity. Qed.

Lemma predict_answered thr m data st :
  is_Some (lru st) -> answered (run_view m (predict thr data) st).1.
Proof.
  intros [v Hv]. unfold run_view.
  destruct (json_loads_array data) as [e | q] eqn:Hq.
  - unfold predict. rewrite Hq. simpl. rewrite sent_status. simpl. auto.
  - rewrite (predict_parsed thr data q st v _ Hq (load_trained_model_hit st v Hv)).
    destruct (run_inference thr v.1.1 v.1.2 v.2 q (log EvCall st)) as [[p | e] s];
      simpl; rewrite sent_status; simpl; auto.
Qed.

Lemma app_run_answered thr reqs st :
  is_Some (lru st) -> List.Forall answered (fst (app_run thr reqs st)).
Proof.
  revert st. induction reqs as [| rq reqs IH]; intros st Hv; simpl.
  - constructor.
  - pose proof (handle_same_loads thr rq st Hv) as (Hc & _).
    assert (Ha : answered (handle thr rq st).1).
    { unfold handle.
      destruct (dispatch (req_method rq) (req_path rq)) as [[|] | | | |];
        try exact I.
      - unfold run_view, ping, ret. simpl. rewrite sent_status. simpl. auto.
      - apply predict_answered. exact Hv. }
    destruct (handle thr rq st) as [r s1]. simpl in *.
    specialize (IH s1 ltac:(rewrite Hc; exact Hv)).
    destruct (app_run thr reqs s1) as [rs s2]. simpl in *.
    constructor; assumption.
Qed.

(** A GET or HEAD request to /ping is answered with status 200 in every
    state of the server, and leaves the state as it was; the body is a
    line feed for GET and empty for HEAD. *)
Lemma ping_needs_no_model thr rq st :
  req_path rq = "/ping" ->
  req_method rq = GET \/ req_method rq = HEAD ->
  handle thr rq st =
  (Replied {| response := Text (if bool_decide (req_method rq = HEAD)
                                then "" else nl);
              status := 200; mimetype := None |}, st).
Proof.
  intros Hp Hm. unfold handle. rewrite Hp.
  destruct Hm as [-> | ->]; reflexivity.
Qed.

(** X1: heartbeats do not disturb the service.  A request to /ping is
    answered with status 200 wherever it comes among the requests, whether
    a model is cached or not: with a line feed as its body when it is a GET
    request, with an empty body when it is a HEAD request.  The replies to
    the other requests and the state the server ends in are what they are
    without it. *)
Theorem ping_is_invisible thr reqs1 rq reqs2 st :
  req_path rq = "/ping" ->
  req_method rq = GET \/ req_method rq = HEAD ->
  fst (app_run thr (reqs1 ++ rq :: reqs2) st) =
    fst (app_run thr reqs1 st)
    ++ Replied {| response := Text (if bool_decide (req_method rq = HEAD)
                                    then "" else nl);
                  status := 200; mimetype := None |}
    :: fst (app_run thr reqs2 (snd (app_run thr reqs1 st))) /\
  fst (app_run thr (reqs1 ++ reqs2) st) =
    fst (app_run thr reqs1 st)
    ++ fst (app_run thr reqs2 (snd (app_run thr reqs1 st))) /\
  snd (app_run thr (reqs1 ++ rq :: reqs2) st) =
    snd (app_run thr (reqs1 ++ reqs2) st).
Proof.
  intros Hp Hm. rewrite !app_run_app. cbn [fst snd app_run].
  rewrite (ping_needs_no_model thr rq _ Hp Hm).
  destruct (app_run thr reqs2 (app_run thr reqs1 st).2) as [rs st2].
  repeat split.
Qed.

(** X2: a forest or k-means model trained on a GPU is refused on a CPU
    machine.  When GPU_INFERENCE_FLAG is false and the file name of the
    loaded RandomForest or KMeans model contains "gpu", every request that
    parses is answered with status 400 and the fixed message, and the
    model's [predict] is not called. *)
Theorem cpu_refuses_gpu_model thr data q st m ty f :
  GPU_INFERENCE_FLAG = false ->
  lru st = Some (m, ty, f) ->
  ty = "RandomForest" \/ ty = "KMeans" ->
  contains "gpu" f = true ->
  json_loads_array data = inr q ->
  predict thr data st =
  (Returned (inference_failure (Exception
     ("attempting to run CPU inference on a GPU trained " +:+ ty +:+ " model"))),
   log EvCall st) /\
  n_predict (log EvCall st) = n_predict st.
Proof.
  intros Hcpu Hv Hty Hgpu Hq. split.
  - rewrite (predict_parsed thr data q st _ _ Hq (load_trained_model_hit st _ Hv)).
    simpl. unfold run_inference, raise. rewrite Hgpu, Hcpu.
    destruct Hty as [-> | ->]; reflexivity.
  - unfold n_predict, log. simpl.
    rewrite List.filter_app, List.length_app. simpl. lia.
Qed.

(** X3: what the model is asked.  On a server that holds a model, a
    request that parses (and is not refused by the GPU check) first has its
    query converted: to a DMatrix for XGBoost on a CPU, not at all for
    XGBoost on a GPU, to float32 for RandomForest and KMeans.  When the
    conversion raises, the answer is 400 with its error and the model's
    [predict] is not called.  Otherwise [predict] is called exactly once,
    on the converted query, and the answer is 200 with the predictions
    (thresholded for XGBoost only), or 400 with the error the model
    raised. *)
Theorem predict_calls_model_once thr data q st m ty f :
  lru st = Some (m, ty, f) ->
  json_loads_array data = inr q ->
  ty = "XGBoost" \/
    ((ty = "RandomForest" \/ ty = "KMeans") /\
     (contains "gpu" f = false \/ GPU_INFERENCE_FLAG = true)) ->
  match predict_argument ty q with
  | inl conversion_error =>
      predict thr data st =
        (Returned (inference_failure conversion_error), log EvCall st) /\
      n_predict (snd (predict thr data st)) = n_predict st
  | inr arg =>
      predict thr data st =
        (Returned
           match model_predict m arg with
           | inr raw =>
               predictions_response
                 (if String.eqb ty "XGBoost" then threshold thr raw else raw)
           | inl e => inference_failure e
           end,
         log (EvPredict f) (log EvCall st)) /\
      n_predict (snd (predict thr data st)) = S (n_predict st)
  end.
Proof.
  intros Hv Hq Hty.
  assert (Hn0 : n_predict (log EvCall st) = n_predict st).
  { unfold n_predict, log. simpl.
    rewrite List.filter_app, List.length_app. simpl. lia. }
  assert (Hn1 : n_predict (log (EvPredict f) (log EvCall st)) = S (n_predict st)).
  { unfold n_predict, log. simpl.
    rewrite !List.filter_app, !List.length_app. simpl. lia. }
  rewrite (predict_parsed thr data q st _ _ Hq (load_trained_model_hit st _ Hv)).
  cbn [fst snd].
  unfold predict_argument, run_inference, call_predict, bind, emit, lib, ret, raise.
  destruct Hty as [-> | [Hty Hguard]].
  - cbn [String.eqb Ascii.eqb Bool.eqb].
    destruct GPU_INFERENCE_FLAG.
    + destruct (model_predict m q); split; first [reflexivity | exact Hn1].
    + destruct (xgboost_DMatrix q) as [e | dm];
        [split; first [reflexivity | exact Hn0] |].
      destruct (model_predict m dm); split; first [reflexivity | exact Hn1].
  - assert (Hg : contains "gpu" f && negb GPU_INFERENCE_FLAG = false)
      by (destruct Hguard as [-> | ->]; [reflexivity | apply andb_false_r]).
    rewrite Hg.
    destruct Hty as [-> | ->]; simpl (String.eqb _ _); cbv iota;
      (destruct (astype_float32 q) as [e | q32];
         [split; first [reflexivity | exact Hn0] |];
       destruct (model_predict m q32); split; first [reflexivity | exact Hn1]).
Qed.

(** X4: the server keeps nothing of a request.  Once the model is cached,
    the replies to a sequence of requests are the replies each part of the
    sequence would get on its own: no reply depends on the requests served
    before it, failed ones included. *)
Theorem replies_independent_of_history thr reqs1 reqs2 st :
  is_Some (lru st) ->
  fst (app_run thr (reqs1 ++ reqs2) st) =
  fst (app_run thr reqs1 st) ++ fst (app_run thr reqs2 st).
Proof.
  intros [v Hv]. rewrite app_run_app. simpl. f_equal.
  pose proof (app_run_same_loads thr reqs1 st ltac:(rewrite Hv; eauto)) as (Hc & _).
  apply (app_run_value thr reqs2 _ _ v); congruence.
Qed.

(** X5: a load that fails is not cached.  When [load_trained_model] raises
    on an empty cache, the cache stays empty, and the next call scans the
    model directory again with its three globs. *)
Theorem failed_load_is_not_cached st e st' :
  lru st = None ->
  load_trained_model st = (Raised e, st') ->
  lru st' = None /\
  n_globs (snd (load_trained_model st')) = (n_globs st + 6)%nat.
Proof.
  intros Hc Hl.
  pose proof (load_trained_model_miss st Hc) as H1. rewrite Hl in H1.
  destruct H1 as (Hc' & Hg & _). split; [exact Hc' |].
  pose proof (load_trained_model_miss st' Hc') as H2.
  destruct (load_trained_model st') as [[v2 | e2] st2]; simpl;
    destruct H2 as (_ & Hg2 & _); lia.
Qed.

(** X7: no exception leaves a view of a server that has started.  Every
    reply [serve] gives is a response of status 200, 400 or 415, or an
    answer of Flask's own to a request that reaches no view of the
    script. *)
Theorem served_requests_are_answered thr reqs replies st' :
  serve thr reqs init = (Returned replies, st') ->
  List.Forall answered replies.
Proof.
  unfold serve, bind. intros H.
  pose proof (load_trained_model_miss init eq_refl) as Hm.
  destruct (load_trained_model init) as [[v | e] st1]; [| discriminate H].
  destruct Hm as (Hc & _).
  pose proof (app_run_answered thr reqs st1 ltac:(rewrite Hc; eauto)) as Ha.
  destruct (app_run thr reqs st1) as [rs st2]. simpl in *.
  injection H as <- <-. exact Ha.
Qed.

(** An elementwise operation keeps the shape. *)
Fixpoint nd_map_shape (f : float -> float) (a : ndarray) {struct a} :
  nd_shape (nd_map f a) = nd_shape a.
Proof.
  destruct a as [x | xs]; simpl.
  - reflexivity.
  - f_equal. induction xs as [| b xs IH]; simpl.
    + reflexivity.
    + rewrite nd_map_shape, IH. reflexivity.
Qed.

(** X8: thresholding keeps the shape of the predictions: the answer of an
    XGBoost model has one 0.0 or 1.0 for each score of the model, in the
    same nesting. *)
Theorem threshold_keeps_shape (xgboost_threshold : float) (predictions : ndarray) :
  nd_shape (threshold xgboost_threshold predictions) = nd_shape predictions /\
  nd_all (fun x => x = 0%float \/ x = 1%float)
         (threshold xgboost_threshold predictions).
Proof.
  split.
  - apply nd_map_shape.
  - apply nd_all_map. apply threshold_elem_binary.
Qed.

End ServerMore.

(** A GET /ping on a server that holds nothing. *)
Lemma ping_needs_no_model_witness :
  handle (B := sample_backend no_files false) default_xgboost_threshold
    (mkRequest GET "/ping" "") init =
  (Replied {| response := Text nl; status := 200; mimetype := None |}, init).
Proof.
  apply (ping_needs_no_model (B := sample_backend no_files false)
           default_xgboost_threshold (mkRequest GET "/ping" "") init);
    [reflexivity | left; reflexivity].
Defined.

(** A HEAD /ping: the status of the view, and no body. *)
Example head_ping_has_no_body :
  handle (B := sample_backend no_files false) default_xgboost_threshold
    (mkRequest HEAD "/ping" "") init =
  (Replied {| response := Text ""; status := 200; mimetype := None |}, init).
Proof. reflexivity. Qed.

(** A ping between a request that does not parse and one that does, on
    a server that has loaded nothing. *)
Lemma ping_is_invisible_witness :
  fst (app_run (B := sample_backend xgb_file false) default_xgboost_threshold
         ([mkRequest POST "/invocations" "not json"]
          ++ mkRequest GET "/ping" "" :: [sample_request]) init) =
    fst (app_run (B := sample_backend xgb_file false) default_xgboost_threshold
           [mkRequest POST "/invocations" "not json"] init)
    ++ Replied {| response := Text nl; status := 200; mimetype := None |}
    :: fst (app_run (B := sample_backend xgb_file false) default_xgboost_threshold
              [sample_request]
              (snd (app_run (B := sample_backend xgb_file false)
                      default_xgboost_threshold
                      [mkRequest POST "/invocations" "not json"] init))) /\
  fst (app_run (B := sample_backend xgb_file false) default_xgboost_threshold
         ([mkRequest POST "/invocations" "not json"] ++ [sample_request]) init) =
    fst (app_run (B := sample_backend xgb_file false) default_xgboost_threshold
           [mkRequest POST "/invocations" "not json"] init)
    ++ fst (app_run (B := sample_backend xgb_file false) default_xgboost_threshold
              [sample_request]
              (snd (app_run (B := sample_backend xgb_file false)
                      default_xgboost_threshold
                      [mkRequest POST "/invocations" "not json"] init))) /\
  snd (app_run (B := sample_backend xgb_file false) default_xgboost_threshold
         ([mkRequest POST "/invocations" "not json"]
          ++ mkRequest GET "/ping" "" :: [sample_request]) init) =
    snd (app_run (B := sample_backend xgb_file false) default_xgboost_threshold
           ([mkRequest POST "/invocations" "not json"] ++ [sample_request]) init).
Proof.
  apply (ping_is_invisible (B := sample_backend xgb_file false)
           default_xgboost_threshold
           [mkRequest POST "/invocations" "not json"]
           (mkRequest GET "/ping" "") [sample_request] init);
    [reflexivity | left; reflexivity].
Defined.

(** The states of the sample servers after the initial load. *)
Definition started (files : string -> list string) : state unit :=
  snd (load_trained_model (B := sample_backend files false) init).

(** The forest [gpu_rf] on the CPU machine of the samples. *)
Lemma cpu_refuses_gpu_model_witness :
  predict (B := sample_backend gpu_rf_file false) default_xgboost_threshold
    "[[1.0, 2.0]]" (started gpu_rf_file) =
  (Returned (inference_failure (Exception
     ("attempting to run CPU inference on a GPU trained " +:+ "RandomForest"
      +:+ " model"))),
   log EvCall (started gpu_rf_file)) /\
  n_predict (log EvCall (started gpu_rf_file)) = n_predict (started gpu_rf_file).
Proof.
  apply (cpu_refuses_gpu_model (B := sample_backend gpu_rf_file false)
           default_xgboost_threshold "[[1.0, 2.0]]" sample_query
           (started gpu_rf_file) tt "RandomForest" "/opt/ml/model/gpu_rf");
    first [reflexivity | left; reflexivity].
Defined.

(** The XGBoost model of the samples, asked once through a DMatrix. *)
Lemma predict_calls_model_once_witness :
  predict (B := sample_backend xgb_file false) default_xgboost_threshold
    "[[1.0, 2.0]]" (started xgb_file) =
  (Returned (predictions_response (Array [Scalar 1%float; Scalar 0%float])),
   log (EvPredict "/opt/ml/model/model_xgb") (log EvCall (started xgb_file))) /\
  n_predict (snd (predict (B := sample_backend xgb_file false)
                    default_xgboost_threshold "[[1.0, 2.0]]" (started xgb_file))) =
    S (n_predict (started xgb_file)).
Proof.
  apply (predict_calls_model_once (B := sample_backend xgb_file false)
           default_xgboost_threshold "[[1.0, 2.0]]" sample_query
           (started xgb_file) tt "XGBoost" "/opt/ml/model/model_xgb");
    first [reflexivity | left; reflexivity].
Defined.

(** A query of one dimension: the DMatrix cannot be built, the answer is
    400 and the model has not been asked. *)
Example dmatrix_failure_is_answered :
  predict (B := sample_backend xgb_file false) default_xgboost_threshold
    "[1.0, 2.0]" (started xgb_file) =
  (Returned (inference_failure
               (Exception "Expecting 2 dimensional numpy.ndarray")),
   log EvCall (started xgb_file)) /\
  n_predict (snd (predict (B := sample_backend xgb_file false)
                    default_xgboost_threshold "[1.0, 2.0]" (started xgb_file))) =
    0%nat.
Proof. split; reflexivity. Qed.

(** A body that does not parse, then one that does. *)
Lemma replies_independent_of_history_witness :
  fst (app_run (B := sample_backend xgb_file false) default_xgboost_threshold
         ([mkRequest POST "/invocations" "not json"] ++ [sample_request])
         (started xgb_file)) =
  fst (app_run (B := sample_backend xgb_file false) default_xgboost_threshold
         [mkRequest POST "/invocations" "not json"] (started xgb_file))
  ++ fst (app_run (B := sample_backend xgb_file false) default_xgboost_threshold
            [sample_request] (started xgb_file)).
Proof.
  apply (replies_independent_of_history (B := sample_backend xgb_file false)).
  exists (tt, "XGBoost", "/opt/ml/model/model_xgb"). reflexivity.
Defined.

(** The empty model directory: two calls, six globs. *)
Lemma failed_load_is_not_cached_witness :
  lru (snd (load_trained_model (B := sample_backend no_files false) init)) = None /\
  n_globs (snd (load_trained_model (B := sample_backend no_files false)
                  (snd (load_trained_model (B := sample_backend no_files false)
                          init)))) = (n_globs (init (model := unit)) + 6)%nat.
Proof.
  apply (failed_load_is_not_cached (B := sample_backend no_files false) init
           (Exception "! No trained models detected")); reflexivity.
Defined.

(** A ping, a request that parses and one that does not. *)
Lemma served_requests_are_answered_witness :
  List.Forall answered
    [ Replied {| response := Text nl; status := 200; mimetype := None |};
      Replied (predictions_response (Array [Scalar 1%float; Scalar 0%float]));
      Replied parse_failure ].
Proof.
  eapply (served_requests_are_answered (B := sample_backend xgb_file false)
            default_xgboost_threshold
            [ mkRequest GET "/ping" ""; sample_request;
              mkRequest POST "/invocations" "not json" ]).
  reflexivity.
Defined.

End Serve.

(** * scripts/gen_release_checklist_issue.py *)
Module Checklist.

(** ** pathlib, as far as the script uses it (POSIX flavour)

    A path is its root and the parts below it; no part is empty. *)
Record path := mkPath {
  absolute : bool;
  comps : list string;
}.

(** [p.parts]: an absolute path starts with the part ["/"]. *)
Definition parts (p : path) : list string :=
  (if absolute p then ["/"] else []) ++ comps p.

(** [p.name]: the last part below the root, empty when there is none. *)
Definition name (p : path) : string := List.last (comps p) "".

(** [p.parent] *)
Definition parent (p : path) : path :=
  mkPath (absolute p) (List.removelast (comps p)).

(** [p / part] *)
Definition joinpath (p : path) (part : string) : path :=
  mkPath (absolute p) (comps p ++ [part]).

Fixpoint strip_prefix (prefix l : list string) : option (list string) :=
  match prefix, l with
  | [], _ => Some l
  | x :: prefix', y :: l' =>
      if String.eqb x y then strip_prefix prefix' l' else None
  | _ :: _, [] => None
  end.

(** [p.relative_to(other)]; [None] is its ValueError. *)
Definition relative_to (p other : path) : option path :=
  if Bool.eqb (absolute p) (absolute other) then
    option_map (mkPath false) (strip_prefix (comps other) (comps p))
  else None.

(** [str(p)] *)
Definition str (p : path) : string :=
  match absolute p, comps p with
  | true, l => "/" +:+ String.concat "/" l
  | false, [] => "."
  | false, l => String.concat "/" l
  end.

(** [s.rfind(c)] *)
Fixpoint rfind (c : ascii) (s : string) : option nat :=
  match s with
  | EmptyString => None
  | String a rest =>
      match rfind c rest with
      | Some i => Some (S i)
      | None => if Ascii.eqb a c then Some 0%nat else None
      end
  end.

(** The suffix of a file name: from its last dot, unless that dot is the
    first or the last character. *)
Definition name_suffix (n : string) : string :=
  match rfind "."%char n with
  | Some i =>
      if (0 <? i)%nat && (i <? String.length n - 1)%nat
      then String.substring i (String.length n - i) n
      else ""
  | None => ""
  end.

(** [p.suffix] *)
Definition suffix (p : path) : string := name_suffix (name p).

(** [p.with_suffix("")]; [None] is its ValueError on an empty name. *)
Definition with_suffix_empty (p : path) : option path :=
  let n := name p in
  if String.eqb n "" then None
  else
    let old_suffix := name_suffix n in
    let n' :=
      if String.eqb old_suffix "" then n
      else String.substring 0 (String.length n - String.length old_suffix) n in
    Some (mkPath (absolute p) (List.removelast (comps p) ++ [n'])).

(** ** The script *)

(** What [rglob] yields and what the script reads of it: the path, whether
    it is a regular file, and [metadata["review_priority"]] of its front
    matter as a string ([None] when the key is absent: the KeyError). *)
Record entry := mkEntry {
  entry_path : path;
  is_file : bool;
  review_priority : option string;
}.

Record file_info := mkInfo {
  file : path;
  url : string;
  priority : string;
}.

Record priority_list := mkList {
  list_name : string;
  pages : list file_info;
}.

(** A dict keyed by strings, in insertion order. *)
Definition dict (V : Type) : Type := list (string * V).

Definition priority_lists : dict priority_list :=
  [ ("index", mkList "Index/Non-technical" []);
    ("p0", mkList "P0" []);
    ("p1", mkList "P1" []);
    ("p2", mkList "P2" []) ].

(** [key in d] *)
Definition dict_mem {V} (key : string) (d : dict V) : bool :=
  List.existsb (fun kv => String.eqb (fst kv) key) d.

(** [d[key]["pages"].append(info)] *)
Definition append_page (key : string) (info : file_info)
    (d : dict priority_list) : dict priority_list :=
  List.map (fun kv =>
    if String.eqb (fst kv) key
    then (fst kv, mkList (list_name (snd kv)) (pages (snd kv) ++ [info]))
    else kv) d.

Inductive exn :=
| ValueError (msg : string).

Definition nightly : string := "https://docs.rapids.ai/deployment/nightly/".

(** The text after the nightly address: the last value of [rel_path]. *)
Definition url_path (rel_path : path) : string :=
  if negb (String.eqb (name rel_path) "") then
    match with_suffix_empty rel_path with
    | Some p => str p
    | None => str rel_path
    end
  else if String.eqb (str rel_path) "." then ""
  else str rel_path.

(** One turn of the loop over the files. *)
Definition visit (source : path) (f : entry) (lists : dict priority_list)
  : exn + dict priority_list :=
  let file := entry_path f in
  if is_file f && bool_decide (suffix file ∈ [".ipynb"; ".md"]) then
    if bool_decide ("_includes" ∈ parts file) then inr lists
    else if bool_decide (".ipynb_checkpoints" ∈ parts file) then inr lists
    else
      let rel_path :=
        if bool_decide ("index.md" ∈ parts file) then parent file else file in
      match relative_to rel_path source with
      | None =>
          inl (ValueError (str rel_path +:+ " is not in the subpath of "
                           +:+ str source))
      | Some rel_path =>
          let priority :=
            if String.eqb (suffix file) ".md" then
              match review_priority f with
              | Some p => p
              | None => "p2"
              end
            else "p2" in
          let file_info :=
            {| file := file;
               url := nightly +:+ url_path rel_path;
               priority := priority |} in
          if dict_mem priority lists
          then inr (append_page priority file_info lists)
          else inl (ValueError ("Unknown review_priority '" +:+ priority
                                +:+ "' for page " +:+ str file))
      end
  else inr lists.

(** The loop: it stops at the first exception. *)
Fixpoint walk (source : path) (files : list entry) (lists : dict priority_list)
  : exn + dict priority_list :=
  match files with
  | [] => inr lists
  | f :: files' =>
      match visit source f lists with
      | inl e => inl e
      | inr lists' => walk source files' lists'
      end
  end.

(** [sorted(pages, key=lambda x: x["url"])]: stable, by code points. *)
Fixpoint insert_page (p : file_info) (l : list file_info) : list file_info :=
  match l with
  | [] => [p]
  | q :: l' =>
      if String.leb (url p) (url q) then p :: q :: l'
      else q :: insert_page p l'
  end.

Definition sorted_pages (l : list file_info) : list file_info :=
  List.fold_right insert_page [] l.

Definition checklist_line (page : file_info) : string := "- [ ] " +:+ url page.

(** What one priority list prints: one string per [print]. *)
Definition print_list (data : priority_list) : list string :=
  match pages data with
  | [] => []
  | _ :: _ =>
      ("### " +:+ list_name data +:+ nl)
        :: List.map checklist_line (sorted_pages (pages data)) ++ [""]
  end.

Definition print_sections (lists : dict priority_list) : list string :=
  List.concat (List.map (fun kv => print_list (snd kv)) lists).

Definition header : string :=
"# Release checklist

For the upcoming release we need to verify our documentation. This is a best efforts activity
so please refer to the checklist from the previous release and focus on pages that were not
verified last time.

## Verify pages

- Look at the nightly build of each page listed below
- Check page renders correctly
- Check for spelling/grammar problems
- Check that the instructions work as expected
- Ensure legacy pages with out of date instructions have a content warning
- If page needs updating convert the task to an issue and open a PR that closes the issue

".

Definition footer (script_name : path) : string :=
  "_Issue text generated by " +:+ name (parent script_name) +:+ "/"
    +:+ name script_name +:+ "._".

(** [script_dir.parent / "source"] *)
Definition source_dir (script_name : path) : path :=
  let script_dir := parent script_name in
  joinpath (parent script_dir) "source".

(** The script: [script_name] is [Path(__file__).resolve()], [files] what
    [rglob("*")] yields under the source directory, in its order.  The
    result is what was printed, and the exception that ended the run, if
    any. *)
Definition script (script_name : path) (files : list entry)
  : list string * option exn :=
  match walk (source_dir script_name) files priority_lists with
  | inl e => ([header], Some e)
  | inr lists => (header :: print_sections lists ++ [footer script_name], None)
  end.

(** ** A sample checkout *)

Definition sample_script : path :=
  mkPath true ["repo"; "scripts"; "gen_release_checklist_issue.py"].

Definition sample_source : path := mkPath true ["repo"; "source"].

(** The regular file at [rel] below the sample source directory. *)
Definition page (rel : list string) (review : option string) : entry :=
  {| entry_path := mkPath true (comps sample_source ++ rel);
     is_file := true;
     review_priority := review |}.

(** ** The address of a page, in the words of the specification

    For a page at [rel] below the source directory: the nightly address
    followed by the path with the suffix of the file name removed, or by
    the parent directory when the file is named index.md. *)
Definition strip_suffix (n : string) : string :=
  String.substring 0 (String.length n - String.length (name_suffix n)) n.

Definition spec_url (rel : list string) : string :=
  nightly +:+
  String.concat "/"
    (if String.eqb (List.last rel "") "index.md" then List.removelast rel
     else List.removelast rel ++ [strip_suffix (List.last rel "")]).

(** ** What the loop does with one file, by parts *)

(** The files that get an entry. *)
Definition listed (f : entry) : bool :=
  is_file f && bool_decide (suffix (entry_path f) ∈ [".ipynb"; ".md"])
  && negb (bool_decide ("_includes" ∈ parts (entry_path f)))
  && negb (bool_decide (".ipynb_checkpoints" ∈ parts (entry_path f))).

(** The priority a file is filed under. *)
Definition priority_of (f : entry) : string :=
  if String.eqb (suffix (entry_path f)) ".md"
  then default "p2" (review_priority f)
  else "p2".

(** The path the address is made of. *)
Definition rel_path_of (source : path) (f : entry) : option path :=
  relative_to
    (if bool_decide ("index.md" ∈ parts (entry_path f))
     then parent (entry_path f) else entry_path f)
    source.

Definition info_of (source : path) (f : entry) : file_info :=
  {| file := entry_path f;
     url := nightly +:+ url_path (default (mkPath false []) (rel_path_of source f));
     priority := priority_of f |}.

(** The entries of the files that go to the priority [key], in the order
    of the files. *)
Definition selected (source : path) (key : string) (files : list entry)
  : list file_info :=
  List.map (info_of source)
    (List.filter (fun f => listed f && String.eqb (priority_of f) key) files).

(** A file the loop can handle, given the priority lists: when it is
    listed, it lies below the source directory and its priority is a key. *)
Definition fileable (source : path) (lists : dict priority_list) (f : entry)
  : Prop :=
  listed f = true ->
  is_Some (rel_path_of source f) /\ dict_mem (priority_of f) lists = true.

Definition url_le (a b : file_info) : Prop := String.leb (url a) (url b) = true.

(** The section of one priority in the output. *)
Definition section_of (source : path) (files : list entry)
    (key title : string) : list string :=
  match selected source key files with
  | [] => []
  | ps =>
      ("### " +:+ title +:+ nl)
        :: List.map checklist_line (sorted_pages ps) ++ [""]
  end.

(** ** Properties of the script *)

Lemma strip_prefix_app (prefix rest : list string) :
  strip_prefix prefix (prefix ++ rest) = Some rest.
Proof.
  induction prefix as [| x prefix IH]; simpl.
  - reflexivity.
  - rewrite String.eqb_refl. exact IH.
Qed.

Lemma visit_unlisted source f lists :
  listed f = false -> visit source f lists = inr lists.
Proof.
  unfold listed, visit.
  destruct (is_file f && bool_decide (suffix (entry_path f) ∈ [".ipynb"; ".md"]));
    simpl; [| reflexivity].
  destruct (bool_decide ("_includes" ∈ parts (entry_path f))); simpl;
    [reflexivity |].
  destruct (bool_decide (".ipynb_checkpoints" ∈ parts (entry_path f))); simpl;
    [reflexivity | discriminate].
Qed.

Lemma visit_listed source f lists rel_path :
  listed f = true ->
  rel_path_of source f = Some rel_path ->
  visit source f lists =
  if dict_mem (priority_of f) lists
  then inr (append_page (priority_of f) (info_of source f) lists)
  else inl (ValueError ("Unknown review_priority '" +:+ priority_of f
                        +:+ "' for page " +:+ str (entry_path f))).
Proof.
  unfold listed, visit, info_of, priority_of, rel_path_of.
  intros Hl Hr.
  destruct (is_file f && bool_decide (suffix (entry_path f) ∈ [".ipynb"; ".md"]));
    simpl in Hl; [| discriminate].
  destruct (bool_decide ("_includes" ∈ parts (entry_path f))); simpl in Hl;
    [discriminate |].
  destruct (bool_decide (".ipynb_checkpoints" ∈ parts (entry_path f)));
    simpl in Hl; [discriminate |].
  cbv zeta. rewrite Hr. simpl.
  destruct (review_priority f); reflexivity.
Qed.

Lemma dict_mem_append_page key key' info lists :
  dict_mem key (append_page key' info lists) = dict_mem key lists.
Proof.
  unfold dict_mem, append_page.
  induction lists as [| kv lists IH]; simpl; [reflexivity |].
  rewrite IH. destruct (String.eqb (fst kv) key'); reflexivity.
Qed.

Lemma fileable_append_page source key info lists f :
  fileable source (append_page key info lists) f <-> fileable source lists f.
Proof.
  unfold fileable. rewrite dict_mem_append_page. reflexivity.
Qed.

(** The lists after the loop: every list has got, after the pages it
    held, the entries of its priority in the order of the files. *)
Definition extend (source : path) (files : list entry)
    (lists : dict priority_list) : dict priority_list :=
  List.map (fun kv =>
    (fst kv,
     mkList (list_name (snd kv))
            (pages (snd kv) ++ selected source (fst kv) files))) lists.

Lemma extend_nil source lists : extend source [] lists = lists.
Proof.
  unfold extend, selected. simpl.
  induction lists as [| [k [n ps]] lists IH]; simpl; [reflexivity |].
  rewrite app_nil_r. f_equal. exact IH.
Qed.

Lemma extend_unlisted source f files lists :
  listed f = false -> extend source (f :: files) lists = extend source files lists.
Proof.
  intros Hl. unfold extend, selected. simpl. rewrite Hl. reflexivity.
Qed.

Lemma extend_listed source f files lists :
  listed f = true ->
  extend source (f :: files) lists =
  extend source files (append_page (priority_of f) (info_of source f) lists).
Proof.
  intros Hl. unfold extend, append_page, selected. rewrite List.map_map.
  apply List.map_ext. intros [k [n ps]]. simpl. rewrite Hl. simpl.
  rewrite (String.eqb_sym (priority_of f) k).
  destruct (String.eqb k (priority_of f)); simpl; [| reflexivity].
  rewrite <- app_assoc. reflexivity.
Qed.

(** The loop over files it can handle returns, and files every listed
    file exactly once, under its priority. *)
Lemma walk_fileable source files lists :
  Forall (fileable source lists) files ->
  walk source files lists = inr (extend source files lists).
Proof.
  revert lists. induction files as [| f files IH]; intros lists Hall; simpl.
  - rewrite extend_nil. reflexivity.
  - inversion Hall as [| f' files' Hf Hfiles]; subst.
    destruct (listed f) eqn:Hl.
    + destruct (Hf Hl) as [[r Hr] Hk].
      rewrite (visit_listed _ _ _ _ Hl Hr), Hk, (extend_listed _ _ _ _ Hl).
      apply IH. eapply List.Forall_impl; [| exact Hfiles].
      intros g Hg. apply fileable_append_page. exact Hg.
    + rewrite (visit_unlisted _ _ _ Hl), (extend_unlisted _ _ _ _ Hl).
      apply IH. exact Hfiles.
Qed.

(** The loop stops at the first listed file whose priority is no key,
    with a ValueError that names the priority and the page. *)
Lemma walk_unknown_priority source before f after lists :
  Forall (fileable source lists) before ->
  listed f = true ->
  is_Some (rel_path_of source f) ->
  dict_mem (priority_of f) lists = false ->
  walk source (before ++ f :: after) lists =
  inl (ValueError ("Unknown review_priority '" +:+ priority_of f
                   +:+ "' for page " +:+ str (entry_path f))).
Proof.
  revert lists. induction before as [| g before IH]; intros lists Hall Hl [r Hr] Hk;
    simpl.
  - rewrite (visit_listed _ _ _ _ Hl Hr), Hk. reflexivity.
  - inversion Hall as [| g' before' Hg Hbefore]; subst.
    destruct (listed g) eqn:Hlg.
    + destruct (Hg Hlg) as [[rg Hrg] Hkg].
      rewrite (visit_listed _ _ _ _ Hlg Hrg), Hkg.
      apply IH; eauto.
      * eapply List.Forall_impl; [| exact Hbefore].
        intros h Hh. apply fileable_append_page. exact Hh.
      * rewrite dict_mem_append_page. exact Hk.
    + rewrite (visit_unlisted _ _ _ Hlg). apply IH; eauto.
Qed.

(** Sorting keeps the pages and puts their addresses in ascending order. *)
Lemma insert_page_perm p l : Permutation (p :: l) (insert_page p l).
Proof.
  induction l as [| q l IH]; simpl; [reflexivity |].
  destruct (String.leb (url p) (url q)); [reflexivity |].
  rewrite perm_swap. apply perm_skip. exact IH.
Qed.

Lemma sorted_pages_perm l : Permutation l (sorted_pages l).
Proof.
  induction l as [| p l IH]; simpl; [reflexivity |].
  rewrite <- insert_page_perm. apply perm_skip. exact IH.
Qed.

Lemma insert_page_hd p q l :
  url_le q p -> HdRel url_le q l -> HdRel url_le q (insert_page p l).
Proof.
  intros Hqp Hl. destruct l as [| r l]; simpl.
  - constructor. exact Hqp.
  - destruct (String.leb (url p) (url r)); constructor; [exact Hqp |].
    inversion Hl; assumption.
Qed.

Lemma insert_page_sorted p l :
  Sorted url_le l -> Sorted url_le (insert_page p l).
Proof.
  induction 1 as [| q l Hs IH Hhd]; simpl.
  - repeat constructor.
  - destruct (String.leb (url p) (url q)) eqn:E.
    + constructor; [constructor; assumption | constructor; exact E].
    + constructor; [exact IH |].
      apply insert_page_hd; [| exact Hhd].
      destruct (String.leb_total (url p) (url q)) as [H | H]; [congruence | exact H].
Qed.

Lemma sorted_pages_sorted l : Sorted url_le (sorted_pages l).
Proof.
  induction l as [| p l IH]; simpl; [constructor |].
  apply insert_page_sorted. exact IH.
Qed.

(** What the script prints when it can handle every file: the header, the
    sections of the four priorities in their fixed order, without those
    that have no page, and the footer. *)
Lemma script_output script_name files :
  Forall (fileable (source_dir script_name) priority_lists) files ->
  script script_name files =
  (header
     :: (section_of (source_dir script_name) files "index" "Index/Non-technical"
         ++ section_of (source_dir script_name) files "p0" "P0"
         ++ section_of (source_dir script_name) files "p1" "P1"
         ++ section_of (source_dir script_name) files "p2" "P2")
     ++ [footer script_name],
   None).
Proof.
  intros Hall. unfold script. rewrite (walk_fileable _ _ _ Hall).
  unfold extend, priority_lists, print_sections, print_list, section_of.
  simpl. rewrite app_nil_r.
  repeat match goal with
         | |- context [selected ?s ?k ?f] => destruct (selected s k f)
         end; reflexivity.
Qed.

Lemma substring_all (s : string) : String.substring 0 (String.length s) s = s.
Proof.
  induction s as [| a s IH]; simpl; [reflexivity |]. rewrite IH. reflexivity.
Qed.

Lemma strip_suffix_without (n : string) :
  name_suffix n = "" -> strip_suffix n = n.
Proof.
  intros H. unfold strip_suffix. rewrite H. simpl.
  rewrite Nat.sub_0_r. apply substring_all.
Qed.

(** The address the script gives a page agrees with the specification
    unless a directory on the way is named index.md, or the directory of
    an index.md page has a name with a suffix. *)
Lemma url_as_specified (source : path) (dirs : list string) (fname : string)
    (f : entry) :
  absolute source = true ->
  entry_path f = mkPath true (comps source ++ dirs ++ [fname]) ->
  List.Forall (fun part => part <> "") (dirs ++ [fname]) ->
  ~ List.In "index.md" (comps source ++ dirs) ->
  (fname = "index.md" -> name_suffix (List.last dirs "") = "") ->
  url (info_of source f) = spec_url (dirs ++ [fname]).
Proof.
  intros Habs Hp Hparts_ok Hnoindex Hnodot.
  apply List.Forall_app in Hparts_ok. destruct Hparts_ok as [Hdirs Hfname].
  apply List.Forall_inv in Hfname.
  unfold info_of, spec_url, rel_path_of. simpl. f_equal.
  rewrite List.last_last, List.removelast_last.
  assert (Hparts : parts (entry_path f) = "/" :: comps source ++ dirs ++ [fname])
    by (rewrite Hp; reflexivity).
  destruct (String.eqb_spec fname "index.md") as [-> | Hne].
  - rewrite bool_decide_eq_true_2.
    2:{ rewrite Hparts. apply list_elem_of_In. right.
        rewrite app_assoc. apply in_or_app. right. left. reflexivity. }
    unfold relative_to, parent. rewrite Hp, Habs. simpl.
    rewrite app_assoc, List.removelast_last, strip_prefix_app. simpl.
    unfold url_path, with_suffix_empty, name, str. simpl.
    destruct dirs as [| d dirs] using List.rev_ind; simpl; [reflexivity |].
    rewrite List.last_last in *. clear IHdirs.
    apply List.Forall_app in Hdirs. destruct Hdirs as [_ Hd].
    apply List.Forall_inv in Hd.
    destruct (String.eqb_spec d "") as [-> | _]; [congruence |]. simpl.
    rewrite (Hnodot eq_refl). simpl. rewrite List.removelast_last.
    destruct (dirs ++ [d]) eqn:E; [destruct dirs; discriminate E | reflexivity].
  - rewrite bool_decide_eq_false_2.
    2:{ rewrite Hparts. intros Hin. apply list_elem_of_In in Hin.
        destruct Hin as [Hin | Hin]; [discriminate Hin |].
        rewrite app_assoc in Hin. apply in_app_or in Hin.
        destruct Hin as [Hin | [Hin | []]]; [exact (Hnoindex Hin) | congruence]. }
    unfold relative_to. rewrite Hp, Habs. simpl.
    rewrite strip_prefix_app. simpl.
    unfold url_path, with_suffix_empty, name, str. simpl.
    rewrite List.last_last, List.removelast_last.
    destruct (String.eqb_spec fname "") as [-> | _]; [congruence |]. simpl.
    assert (Hstem : (if String.eqb (name_suffix fname) ""
                     then fname
                     else String.substring 0
                            (String.length fname - String.length (name_suffix fname))
                            fname) = strip_suffix fname).
    { destruct (String.eqb_spec (name_suffix fname) "") as [E | _]; [| reflexivity].
      symmetry. apply strip_suffix_without. exact E. }
    rewrite Hstem.
    destruct (dirs ++ [strip_suffix fname]) eqn:E;
      [destruct dirs; discriminate E | reflexivity].
Qed.

(** What [rglob] yields lies below the source directory, so that the
    script's [relative_to] does not raise. *)
Lemma rel_path_of_below (source : path) (rel : list string) (f : entry) :
  absolute source = true ->
  rel <> [] ->
  entry_path f = mkPath true (comps source ++ rel) ->
  is_Some (rel_path_of source f).
Proof.
  intros Habs Hrel Hp. unfold rel_path_of, relative_to, parent.
  destruct (bool_decide ("index.md" ∈ parts (entry_path f)));
    rewrite Hp, Habs; simpl.
  - rewrite List.removelast_app by exact Hrel.
    rewrite strip_prefix_app. simpl. eauto.
  - rewrite strip_prefix_app. simpl. eauto.
Qed.

(** A run on a small tree: the top page, two pages of priority p0 that
    come out in the order of their addresses, a notebook whose priority is
    not read, an include, and a file that is no page. *)
Example sample_checklist :
  script sample_script
    [ page ["index.md"] (Some "index");
      page ["cloud"; "aws"; "ec2.md"] (Some "p0");
      page ["cloud"; "aws"; "index.md"] (Some "p0");
      page ["examples"; "hpo"; "notebook.ipynb"] (Some "p0");
      page ["_includes"; "menus"; "aws.md"] None;
      page ["images"; "logo.png"] None ] =
  ([ header;
     "### Index/Non-technical" +:+ nl;
     "- [ ] https://docs.rapids.ai/deployment/nightly/";
     "";
     "### P0" +:+ nl;
     "- [ ] https://docs.rapids.ai/deployment/nightly/cloud/aws";
     "- [ ] https://docs.rapids.ai/deployment/nightly/cloud/aws/ec2";
     "";
     "### P2" +:+ nl;
     "- [ ] https://docs.rapids.ai/deployment/nightly/examples/hpo/notebook";
     "";
     "_Issue text generated by scripts/gen_release_checklist_issue.py._" ],
   None).
Proof. vm_compute. reflexivity. Qed.

(** A priority that is no key ends the run after the header. *)
Example sample_unknown_priority :
  script sample_script
    [ page ["index.md"] (Some "index"); page ["guides"; "mig.md"] (Some "p3") ] =
  ([header],
   Some (ValueError
     "Unknown review_priority 'p3' for page /repo/source/guides/mig.md")).
Proof. vm_compute. reflexivity. Qed.

(** C5, where the script departs from it: the page [v1.2/index.md] should
    be listed under its parent directory, [.../nightly/v1.2]; the script
    removes what it takes for a suffix of the directory name and prints
    [.../nightly/v1]. *)
Theorem dotted_directory_index_url :
  script sample_script [page ["v1.2"; "index.md"] None] =
    ([ header;
       "### P2" +:+ nl;
       "- [ ] https://docs.rapids.ai/deployment/nightly/v1";
       "";
       footer sample_script ], None) /\
  spec_url ["v1.2"; "index.md"] =
    "https://docs.rapids.ai/deployment/nightly/v1.2".
Proof. split; vm_compute; reflexivity. Qed.

(** ** The script on any tree *)

(** The keys of [priority_lists]. *)
Definition priorities : list string := List.map fst priority_lists.

(** A path [rglob] can yield: it lies properly below [source]. *)
Definition below (source : path) (f : entry) : Prop :=
  exists rel, rel <> [] /\ entry_path f = mkPath true (comps source ++ rel).

(** The lines of the output that are checklist entries. *)
Definition is_entry_line (line : string) : bool := String.prefix "- [ ] " line.

(** The same file with another [review_priority] in its front matter. *)
Definition with_review (r : option string) (f : entry) : entry :=
  {| entry_path := entry_path f; is_file := is_file f; review_priority := r |}.

Definition str_le (a b : string) : Prop := String.leb a b = true.

Lemma dict_mem_priorities (p : string) :
  dict_mem p priority_lists = true <-> List.In p priorities.
Proof.
  unfold dict_mem, priorities, priority_lists.
  cbn [List.existsb List.map fst List.In].
  destruct (String.eqb_spec "index" p); destruct (String.eqb_spec "p0" p);
    destruct (String.eqb_spec "p1" p); destruct (String.eqb_spec "p2" p);
    cbn [orb]; split; intros H; try discriminate H; try reflexivity;
    intuition congruence.
Qed.

Lemma source_dir_absolute script_name :
  absolute script_name = true -> absolute (source_dir script_name) = true.
Proof. intros H. exact H. Qed.

Lemma fileable_of_tree source files :
  absolute source = true ->
  List.Forall (below source) files ->
  List.Forall (fun f => listed f = true -> List.In (priority_of f) priorities) files ->
  List.Forall (fileable source priority_lists) files.
Proof.
  intros Habs Hb Hp. rewrite List.Forall_forall in *.
  intros f Hf Hl. split.
  - destruct (Hb f Hf) as (rel & Hrel & Hpath).
    exact (rel_path_of_below source rel f Habs Hrel Hpath).
  - apply dict_mem_priorities. exact (Hp f Hf Hl).
Qed.

Lemma walk_filter_listed source files lists :
  walk source files lists = walk source (List.filter listed files) lists.
Proof.
  revert lists. induction files as [| f files IH]; intros lists; simpl;
    [reflexivity |].
  destruct (listed f) eqn:Hl; simpl.
  - destruct (visit source f lists); [reflexivity | apply IH].
  - rewrite (visit_unlisted _ _ _ Hl). apply IH.
Qed.

Lemma walk_map source (g : entry -> entry) files :
  (forall f lists, visit source (g f) lists = visit source f lists) ->
  forall lists, walk source (List.map g files) lists = walk source files lists.
Proof.
  intros Hg. induction files as [| f files IH]; intros lists; simpl;
    [reflexivity |].
  rewrite Hg. destruct (visit source f lists); [reflexivity | apply IH].
Qed.

Lemma visit_notebook source r f lists :
  suffix (entry_path f) <> ".md" ->
  visit source (with_review r f) lists = visit source f lists.
Proof.
  intros Hs. unfold visit, with_review. simpl.
  destruct (String.eqb_spec (suffix (entry_path f)) ".md") as [E | _];
    [contradiction | reflexivity].
Qed.

(** The order of strings by code points is transitive. *)
Lemma compare_lt_trans (s1 : string) :
  forall s2 s3,
    String.compare s1 s2 = Lt -> String.compare s2 s3 = Lt ->
    String.compare s1 s3 = Lt.
Proof.
  induction s1 as [| a s1 IH]; intros [| b s2] [| c s3]; simpl;
    try discriminate; try reflexivity.
  unfold Ascii.compare.
  destruct (N.compare_spec (N_of_ascii a) (N_of_ascii b));
    destruct (N.compare_spec (N_of_ascii b) (N_of_ascii c));
    destruct (N.compare_spec (N_of_ascii a) (N_of_ascii c));
    try discriminate; try lia; intros; eauto.
Qed.

Lemma str_le_trans (a b c : string) : str_le a b -> str_le b c -> str_le a c.
Proof.
  unfold str_le, String.leb. intros Hab Hbc.
  destruct (String.compare a b) eqn:Eab; try discriminate Hab.
  - apply String.compare_eq_iff in Eab. subst. exact Hbc.
  - destruct (String.compare b c) eqn:Ebc; try discriminate Hbc.
    + apply String.compare_eq_iff in Ebc. subst. rewrite Eab. reflexivity.
    + rewrite (compare_lt_trans a b c Eab Ebc). reflexivity.
Qed.

(** Two sorted lists of the same strings are the same list. *)
Lemma sorted_strings_unique (a : list string) :
  forall b, StronglySorted str_le a -> StronglySorted str_le b ->
            Permutation a b -> a = b.
Proof.
  induction a as [| x a IH]; intros b Ha Hb Hperm.
  - apply Permutation_nil in Hperm. congruence.
  - destruct b as [| y b].
    + symmetry in Hperm. apply Permutation_nil in Hperm. discriminate Hperm.
    + apply StronglySorted_inv in Ha. destruct Ha as [Ha Hxa].
      apply StronglySorted_inv in Hb. destruct Hb as [Hb Hyb].
      assert (Hxy : x = y).
      { assert (Hx : List.In x (y :: b))
          by (eapply Permutation_in; [exact Hperm | left; reflexivity]).
        assert (Hy : List.In y (x :: a))
          by (eapply Permutation_in; [symmetry; exact Hperm | left; reflexivity]).
        destruct Hx as [Hx | Hx]; [congruence |].
        destruct Hy as [Hy | Hy]; [congruence |].
        rewrite List.Forall_forall in Hxa, Hyb.
        apply String.leb_antisym; [apply Hxa | apply Hyb]; assumption. }
      subst y. f_equal. apply IH; try assumption.
      eapply Permutation_cons_inv. exact Hperm.
Qed.

Lemma sorted_urls (l : list file_info) :
  StronglySorted str_le (List.map url (sorted_pages l)).
Proof.
  apply Sorted_StronglySorted.
  - intros a b c. apply str_le_trans.
  - pose proof (sorted_pages_sorted l) as Hs.
    induction Hs as [| p l' Hs IH Hhd]; simpl; constructor.
    + exact IH.
    + destruct Hhd as [| q l'' Hpq]; simpl; constructor. exact Hpq.
Qed.

Lemma sorted_urls_perm (l l' : list file_info) :
  Permutation l l' ->
  List.map url (sorted_pages l) = List.map url (sorted_pages l').
Proof.
  intros Hperm. apply sorted_strings_unique; try apply sorted_urls.
  apply Permutation_map.
  rewrite <- (sorted_pages_perm l), <- (sorted_pages_perm l'). exact Hperm.
Qed.

Lemma filter_perm (A : Type) (p : A -> bool) (l l' : list A) :
  Permutation l l' -> Permutation (List.filter p l) (List.filter p l').
Proof.
  induction 1 as [| x l l' _ IH | x y l | l l' l'' _ IH1 _ IH2]; simpl.
  - constructor.
  - destruct (p x); [apply perm_skip |]; exact IH.
  - destruct (p x), (p y); try reflexivity. apply perm_swap.
  - etransitivity; eassumption.
Qed.

Lemma selected_perm source key files files' :
  Permutation files files' ->
  Permutation (selected source key files) (selected source key files').
Proof.
  intros H. unfold selected. apply Permutation_map, filter_perm. exact H.
Qed.

Lemma checklist_lines_of_urls (l : list file_info) :
  List.map checklist_line l = List.map (fun u => "- [ ] " +:+ u) (List.map url l).
Proof. rewrite List.map_map. reflexivity. Qed.

Lemma section_of_perm source files files' key title :
  Permutation files files' ->
  section_of source files key title = section_of source files' key title.
Proof.
  intros H. unfold section_of.
  pose proof (selected_perm source key _ _ H) as Hs.
  pose proof (sorted_urls_perm _ _ Hs) as Hu.
  destruct (selected source key files) as [| p ps];
    destruct (selected source key files') as [| p' ps'].
  - reflexivity.
  - apply Permutation_nil in Hs. discriminate Hs.
  - symmetry in Hs. apply Permutation_nil in Hs. discriminate Hs.
  - rewrite !checklist_lines_of_urls, Hu. reflexivity.
Qed.

Lemma entry_line_prefix (page : file_info) :
  is_entry_line (checklist_line page) = true.
Proof.
  unfold is_entry_line, checklist_line. simpl. destruct (url page); reflexivity.
Qed.

Lemma filter_entry_lines (l : list file_info) :
  List.filter is_entry_line (List.map checklist_line l) = List.map checklist_line l.
Proof.
  induction l as [| p l IH]; simpl; [reflexivity |].
  rewrite IH, entry_line_prefix. reflexivity.
Qed.

Lemma section_entry_lines source files key title :
  List.filter is_entry_line (section_of source files key ("" +:+ title)) =
  List.map checklist_line (sorted_pages (selected source key files)).
Proof.
  unfold section_of.
  destruct (selected source key files) as [| p ps]; [reflexivity |].
  cbn [List.filter is_entry_line String.prefix String.append].
  simpl (String.prefix _ _).
  rewrite List.filter_app, filter_entry_lines. simpl. apply app_nil_r.
Qed.

(** The entries of the four priorities are the entries of the listed
    files, each once. *)
Lemma selected_partition source files :
  List.Forall (fun f => listed f = true -> List.In (priority_of f) priorities) files ->
  Permutation
    (selected source "index" files ++ selected source "p0" files
     ++ selected source "p1" files ++ selected source "p2" files)
    (List.map (info_of source) (List.filter listed files)).
Proof.
  induction 1 as [| f files Hf _ IH]; [reflexivity |].
  unfold selected in *. simpl.
  destruct (listed f) eqn:Hl; simpl; [| exact IH].
  destruct (Hf eq_refl) as [E | [E | [E | [E | []]]]]; rewrite <- E; simpl.
  - apply perm_skip. exact IH.
  - rewrite <- Permutation_middle. apply perm_skip. exact IH.
  - rewrite app_assoc, <- Permutation_middle, <- app_assoc.
    apply perm_skip. exact IH.
  - rewrite !app_assoc, <- Permutation_middle, <- !app_assoc.
    apply perm_skip. exact IH.
Qed.

Lemma with_suffix_name (n : string) :
  (if String.eqb (name_suffix n) "" then n
   else String.substring 0 (String.length n - String.length (name_suffix n)) n)
  = strip_suffix n.
Proof.
  destruct (String.eqb_spec (name_suffix n) "") as [E | _]; [| reflexivity].
  symmetry. apply strip_suffix_without. exact E.
Qed.

(** X9: what is printed for a tree.  When the script lies at an absolute
    path, [rglob] yields paths below the source directory and every listed
    page has one of the four priorities, the script raises nothing and
    prints the header, then the sections Index/Non-technical, P0, P1, P2
    in this order, each with the entries of its pages sorted by address
    and none for a priority without pages, then the footer. *)
Theorem checklist_of_tree script_name files :
  absolute script_name = true ->
  List.Forall (below (source_dir script_name)) files ->
  List.Forall (fun f => listed f = true -> List.In (priority_of f) priorities) files ->
  script script_name files =
  (header
     :: (section_of (source_dir script_name) files "index" "Index/Non-technical"
         ++ section_of (source_dir script_name) files "p0" "P0"
         ++ section_of (source_dir script_name) files "p1" "P1"
         ++ section_of (source_dir script_name) files "p2" "P2")
     ++ [footer script_name],
   None).
Proof.
  intros Habs Hb Hp. apply script_output.
  apply fileable_of_tree; assumption.
Qed.

(** X10: an unknown priority ends the run.  At the first listed page whose
    priority is none of the four, the script raises a ValueError that
    names the priority and the page; it has printed the header and prints
    no section, whatever the pages before and after. *)
Theorem unknown_priority_stops script_name before f after :
  absolute script_name = true ->
  List.Forall (below (source_dir script_name)) (before ++ [f]) ->
  List.Forall (fun g => listed g = true -> List.In (priority_of g) priorities) before ->
  listed f = true ->
  ~ List.In (priority_of f) priorities ->
  script script_name (before ++ f :: after) =
  ([header],
   Some (ValueError ("Unknown review_priority '" +:+ priority_of f
                     +:+ "' for page " +:+ str (entry_path f)))).
Proof.
  intros Habs Hb Hp Hl Hk. unfold script.
  apply List.Forall_app in Hb. destruct Hb as [Hb Hf].
  apply List.Forall_inv in Hf. destruct Hf as (rel & Hrel & Hpath).
  rewrite (walk_unknown_priority (source_dir script_name) before f after
             priority_lists); [reflexivity | | exact Hl | |].
  - apply fileable_of_tree; assumption.
  - exact (rel_path_of_below (source_dir script_name) rel f
             (source_dir_absolute _ Habs) Hrel Hpath).
  - destruct (dict_mem (priority_of f) priority_lists) eqn:E; [| reflexivity].
    apply dict_mem_priorities in E. contradiction.
Qed.

(** X11: sorting the pages of a priority keeps every page, each as often
    as it was there, and puts the addresses in ascending order of code
    points. *)
Theorem pages_sorted_by_url (l : list file_info) :
  Permutation l (sorted_pages l) /\
  StronglySorted str_le (List.map url (sorted_pages l)).
Proof.
  split; [apply sorted_pages_perm | apply sorted_urls].
Qed.

(** X12: files that are not listed do not count.  The script does the
    same, output and exception, on what [rglob] yields and on the listed
    files alone: directories, files with other suffixes and everything
    with a part named _includes or .ipynb_checkpoints change nothing. *)
Theorem unlisted_files_are_invisible script_name files :
  script script_name files = script script_name (List.filter listed files).
Proof.
  unfold script. rewrite walk_filter_listed. reflexivity.
Qed.

(** X13: the front matter of a notebook is not read.  Whatever
    [review_priority] the files that are not .md files carry, the script
    does the same. *)
Theorem notebook_priority_is_not_read script_name (r : option string) files :
  script script_name
    (List.map (fun f => if String.eqb (suffix (entry_path f)) ".md" then f
                        else with_review r f) files) =
  script script_name files.
Proof.
  unfold script. rewrite walk_map; [reflexivity |].
  intros f lists.
  destruct (String.eqb_spec (suffix (entry_path f)) ".md") as [E | E];
    [reflexivity | apply visit_notebook; exact E].
Qed.

(** X14: no page is lost and none is listed twice.  Under the conditions
    of X9, the checklist entries of the output are the entries of the
    listed files, one for each file. *)
Theorem every_listed_page_once script_name files :
  absolute script_name = true ->
  List.Forall (below (source_dir script_name)) files ->
  List.Forall (fun f => listed f = true -> List.In (priority_of f) priorities) files ->
  Permutation
    (List.filter is_entry_line (fst (script script_name files)))
    (List.map (fun f => checklist_line (info_of (source_dir script_name) f))
              (List.filter listed files)).
Proof.
  intros Habs Hb Hp.
  rewrite (script_output script_name files)
    by (apply fileable_of_tree; assumption).
  cbn [fst List.filter]. change (is_entry_line header) with false. cbv iota.
  rewrite !List.filter_app.
  rewrite (section_entry_lines _ files "index" "Index/Non-technical").
  rewrite (section_entry_lines _ files "p0" "P0").
  rewrite (section_entry_lines _ files "p1" "P1").
  rewrite (section_entry_lines _ files "p2" "P2").
  change (List.filter is_entry_line [footer script_name]) with (@nil string).
  rewrite app_nil_r, <- !List.map_app.
  rewrite <- (List.map_map (info_of (source_dir script_name)) checklist_line).
  apply Permutation_map.
  rewrite <- (selected_partition _ files Hp).
  repeat apply Permutation_app; symmetry; apply sorted_pages_perm.
Qed.

(** X15: the order in which [rglob] yields the files does not matter.
    Under the conditions of X9, the script prints the same for every
    order of the files. *)
Theorem walk_order_is_irrelevant script_name files files' :
  absolute script_name = true ->
  List.Forall (below (source_dir script_name)) files ->
  List.Forall (fun f => listed f = true -> List.In (priority_of f) priorities) files ->
  Permutation files files' ->
  script script_name files = script script_name files'.
Proof.
  intros Habs Hb Hp Hperm.
  rewrite (script_output script_name files)
    by (apply fileable_of_tree; assumption).
  rewrite (script_output script_name files')
    by (apply fileable_of_tree; try assumption;
        eapply Permutation_Forall; eassumption).
  rewrite !(section_of_perm _ files files' _ _ Hperm). reflexivity.
Qed.

(** X16: the address of a page that is not an index page.  For a file
    [fname] in the directories [dirs] below the source directory, none of
    them named index.md, the address is the nightly address, the
    directories and the file name without its suffix, joined by [/]. *)
Theorem plain_page_url (source : path) (dirs : list string) (fname : string)
    (f : entry) :
  absolute source = true ->
  entry_path f = mkPath true (comps source ++ dirs ++ [fname]) ->
  fname <> "" ->
  ~ List.In "index.md" (comps source ++ dirs ++ [fname]) ->
  url (info_of source f) =
  nightly +:+ String.concat "/" (dirs ++ [strip_suffix fname]).
Proof.
  intros Habs Hp Hfname Hnoindex.
  unfold info_of, rel_path_of. simpl. f_equal.
  rewrite bool_decide_eq_false_2.
  2:{ unfold parts. rewrite Hp. simpl. intros Hin.
      apply list_elem_of_In in Hin.
      destruct Hin as [Hin | Hin]; [discriminate Hin | exact (Hnoindex Hin)]. }
  unfold relative_to. rewrite Hp, Habs. simpl.
  rewrite strip_prefix_app. simpl.
  unfold url_path, with_suffix_empty, name, str. simpl.
  rewrite List.last_last, List.removelast_last.
  destruct (String.eqb_spec fname "") as [-> | _]; [congruence |]. simpl.
  rewrite with_suffix_name.
  destruct (dirs ++ [strip_suffix fname]) eqn:E;
    [destruct dirs; discriminate E | reflexivity].
Qed.

(** X17: the address of an index page.  For index.md in the directories
    [dirs] below the source directory, the address is the nightly address
    alone at the top, and otherwise the directories joined by [/], the
    last of them without what pathlib takes for its suffix. *)
Theorem index_page_url (source : path) (dirs : list string) (f : entry) :
  absolute source = true ->
  entry_path f = mkPath true (comps source ++ dirs ++ ["index.md"]) ->
  List.Forall (fun part => part <> "") dirs ->
  url (info_of source f) =
  nightly +:+
  match dirs with
  | [] => ""
  | _ :: _ =>
      String.concat "/"
        (List.removelast dirs ++ [strip_suffix (List.last dirs "")])
  end.
Proof.
  intros Habs Hp Hdirs.
  unfold info_of, rel_path_of. simpl. f_equal.
  rewrite bool_decide_eq_true_2.
  2:{ unfold parts. rewrite Hp. simpl. apply list_elem_of_In. right.
      rewrite app_assoc. apply in_or_app. right. left. reflexivity. }
  unfold relative_to, parent. rewrite Hp, Habs. simpl.
  rewrite app_assoc, List.removelast_last, strip_prefix_app. simpl.
  unfold url_path, with_suffix_empty, name, str. simpl.
  destruct dirs as [| d0 dirs0]; [reflexivity |].
  assert (Hlast : List.last (d0 :: dirs0) "" <> "").
  { destruct (@exists_last _ (d0 :: dirs0) ltac:(discriminate)) as (l' & d & E).
    rewrite E, List.last_last. rewrite E in Hdirs.
    apply List.Forall_app in Hdirs. destruct Hdirs as [_ Hd].
    apply List.Forall_inv in Hd. exact Hd. }
  destruct (String.eqb_spec (List.last (d0 :: dirs0) "") "") as [E | _];
    [contradiction |].
  cbv beta iota zeta. simpl negb. cbv iota.
  rewrite with_suffix_name.
  destruct (List.removelast (d0 :: dirs0)
            ++ [strip_suffix (List.last (d0 :: dirs0) "")]) eqn:E;
    [destruct (List.removelast (d0 :: dirs0)); discriminate E | reflexivity].
Qed.

(** The sample tree, for the statements above. *)
Definition sample_tree : list entry :=
  [ page ["index.md"] (Some "index");
    page ["cloud"; "aws"; "ec2.md"] (Some "p0");
    page ["cloud"; "aws"; "index.md"] (Some "p0");
    page ["examples"; "hpo"; "notebook.ipynb"] (Some "p0");
    page ["_includes"; "menus"; "aws.md"] None;
    page ["images"; "logo.png"] None ].

Lemma sample_tree_below :
  List.Forall (below (source_dir sample_script)) sample_tree.
Proof.
  repeat constructor;
    match goal with
    | |- below _ (page ?rel _) => exists rel; split; [discriminate | reflexivity]
    end.
Qed.

Lemma sample_tree_priorities :
  List.Forall (fun f => listed f = true -> List.In (priority_of f) priorities)
    sample_tree.
Proof.
  repeat constructor; vm_compute; intros; try discriminate; tauto.
Qed.

Lemma checklist_of_tree_witness :
  script sample_script sample_tree =
  (header
     :: (section_of (source_dir sample_script) sample_tree "index" "Index/Non-technical"
         ++ section_of (source_dir sample_script) sample_tree "p0" "P0"
         ++ section_of (source_dir sample_script) sample_tree "p1" "P1"
         ++ section_of (source_dir sample_script) sample_tree "p2" "P2")
     ++ [footer sample_script],
   None).
Proof.
  apply (checklist_of_tree sample_script sample_tree);
    [reflexivity | exact sample_tree_below | exact sample_tree_priorities].
Defined.

(** A page of priority p3 between two pages that are in order. *)
Lemma unknown_priority_stops_witness :
  script sample_script
    ([page ["index.md"] (Some "index")]
     ++ page ["guides"; "mig.md"] (Some "p3") :: [page ["cloud"; "azure.md"] None]) =
  ([header],
   Some (ValueError ("Unknown review_priority '"
                     +:+ priority_of (page ["guides"; "mig.md"] (Some "p3"))
                     +:+ "' for page "
                     +:+ str (entry_path (page ["guides"; "mig.md"] (Some "p3")))))).
Proof.
  apply (unknown_priority_stops sample_script
           [page ["index.md"] (Some "index")]
           (page ["guides"; "mig.md"] (Some "p3"))
           [page ["cloud"; "azure.md"] None]).
  - reflexivity.
  - repeat constructor;
      match goal with
      | |- below _ (page ?rel _) => exists rel; split; [discriminate | reflexivity]
      end.
  - repeat constructor.
  - reflexivity.
  - vm_compute. intuition discriminate.
Defined.

Lemma every_listed_page_once_witness :
  Permutation
    (List.filter is_entry_line (fst (script sample_script sample_tree)))
    (List.map (fun f => checklist_line (info_of (source_dir sample_script) f))
              (List.filter listed sample_tree)).
Proof.
  apply (every_listed_page_once sample_script sample_tree);
    [reflexivity | exact sample_tree_below | exact sample_tree_priorities].
Defined.

(** The sample tree, walked backwards. *)
Lemma walk_order_is_irrelevant_witness :
  script sample_script sample_tree = script sample_script (List.rev sample_tree).
Proof.
  apply (walk_order_is_irrelevant sample_script sample_tree (List.rev sample_tree));
    [reflexivity | exact sample_tree_below | exact sample_tree_priorities
    | apply Permutation_rev].
Defined.

Lemma plain_page_url_witness :
  url (info_of sample_source (page ["cloud"; "aws"; "ec2.md"] (Some "p0"))) =
  nightly +:+ String.concat "/" (["cloud"; "aws"] ++ [strip_suffix "ec2.md"]).
Proof.
  apply (plain_page_url sample_source ["cloud"; "aws"] "ec2.md"
           (page ["cloud"; "aws"; "ec2.md"] (Some "p0")));
    [reflexivity | reflexivity | discriminate |].
  simpl. intuition discriminate.
Defined.

(** The index page of a directory with a dot in its name. *)
Lemma index_page_url_witness :
  url (info_of sample_source (page ["guides"; "v1.2"; "index.md"] None)) =
  nightly +:+
  String.concat "/"
    (List.removelast ["guides"; "v1.2"]
     ++ [strip_suffix (List.last ["guides"; "v1.2"] "")]).
Proof.
  apply (index_page_url sample_source ["guides"; "v1.2"]
           (page ["guides"; "v1.2"; "index.md"] None));
    [reflexivity | reflexivity | repeat constructor; discriminate].
Defined.

End Checklist.

(** * source/conf.py *)
Module Conf.

(** [os.environ] *)
Abbreviation environ := (gmap string string).

Definition stable_version : string := "25.06".
Definition nightly_version : string := "25.08".

(** The values of one version: a dict from strings to strings. *)
Abbreviation bundle := (gmap string string).

Definition stable : bundle :=
  list_to_map
    [ ("rapids_version", stable_version);
      ("rapids_api_docs_version", "stable");
      ("rapids_container",
        "nvcr.io/nvidia/rapidsai/base:" +:+ stable_version +:+ "-cuda12.8-py3.12");
      ("rapids_notebooks_container",
        "nvcr.io/nvidia/rapidsai/notebooks:" +:+ stable_version +:+ "-cuda12.8-py3.12");
      ("rapids_conda_channels", "-c rapidsai -c conda-forge -c nvidia");
      ("rapids_conda_packages",
        "rapids=" +:+ stable_version +:+ " python=3.12 cuda-version=12.8");
      ("rapids_pip_index", "https://pypi.nvidia.com");
      ("rapids_pip_version", stable_version);
      ("rapids_sagemaker_conda_packages",
        "rapids=24.12 python=3.12 cuda-version=12.5") ].

Definition nightly : bundle :=
  list_to_map
    [ ("rapids_version", nightly_version);
      ("rapids_api_docs_version", "nightly");
      ("rapids_container",
        "rapidsai/base:" +:+ (nightly_version +:+ "a") +:+ "-cuda12.9-py3.12");
      ("rapids_notebooks_container",
        "rapidsai/notebooks:" +:+ (nightly_version +:+ "a") +:+ "-cuda12.9-py3.12");
      ("rapids_conda_channels", "-c rapidsai-nightly -c conda-forge -c nvidia");
      ("rapids_conda_packages",
        "rapids=" +:+ nightly_version +:+ " python=3.12 cuda-version=12.9");
      ("rapids_pip_index", "https://pypi.anaconda.org/rapidsai-wheels-nightly/simple");
      ("rapids_pip_version", nightly_version +:+ ".*,>=0.0.0a0");
      ("rapids_sagemaker_conda_packages",
        "rapids=24.12 python=3.12 cuda-version=12.5") ].

Definition versions : gmap string bundle :=
  <["nightly" := nightly]> (<["stable" := stable]> ∅).

(** [os.environ.get(key, fallback)] *)
Definition environ_get (env : environ) (key fallback : string) : string :=
  default fallback (env !! key).

(** [rapids_version], as first assigned; [None] would be the KeyError of
    [versions[...]]. *)
Definition rapids_version (env : environ) : option bundle :=
  if String.eqb (environ_get env "DEPLOYMENT_DOCS_BUILD_STABLE" "false") "true"
  then versions !! "stable"
  else versions !! "nightly".

Lemma stable_is_not_nightly : stable <> nightly.
Proof.
  intros H.
  assert (E : stable !! "rapids_api_docs_version" = nightly !! "rapids_api_docs_version")
    by (rewrite H; reflexivity).
  vm_compute in E. discriminate E.
Qed.

(** C9: the stable values are selected exactly when
    DEPLOYMENT_DOCS_BUILD_STABLE is set to the string "true"; with any
    other value, or with the variable unset, the nightly values are. *)
Theorem rapids_version_stable_iff (env : environ) :
  (rapids_version env = Some stable <->
   env !! "DEPLOYMENT_DOCS_BUILD_STABLE" = Some "true") /\
  (rapids_version env = Some nightly <->
   env !! "DEPLOYMENT_DOCS_BUILD_STABLE" <> Some "true").
Proof.
  assert (Hs : versions !! "stable" = Some stable).
  { unfold versions. rewrite lookup_insert_ne by discriminate.
    apply lookup_insert_eq. }
  assert (Hn : versions !! "nightly" = Some nightly).
  { unfold versions. apply lookup_insert_eq. }
  unfold rapids_version, environ_get. rewrite Hs, Hn.
  pose proof stable_is_not_nightly as Hne.
  destruct (env !! "DEPLOYMENT_DOCS_BUILD_STABLE") as [value |] eqn:E; simpl;
    [destruct (String.eqb_spec value "true") as [-> | Hv] |];
    split; split; intros; try reflexivity; congruence.
Qed.

(** The three cases on sample environments. *)
Lemma rapids_version_samples :
  rapids_version (<["DEPLOYMENT_DOCS_BUILD_STABLE" := "true"]> ∅) = Some stable /\
  rapids_version (<["DEPLOYMENT_DOCS_BUILD_STABLE" := "True"]> ∅) = Some nightly /\
  rapids_version ∅ = Some nightly.
Proof. repeat split. Qed.

(** ** The lists derived from the selected values *)

(** A value of the selected dict once the lists are added. *)
Inductive value :=
| Str (s : string)
| StrList (l : list string).

(** [s.split(sep)] for a separator of one character: every occurrence
    separates, and empty words are kept. *)
Fixpoint split (sep : ascii) (s : string) : list string :=
  match s with
  | EmptyString => [""]
  | String c rest =>
      match split sep rest with
      | [] => [""]
      | word :: words =>
          if Ascii.eqb c sep then "" :: word :: words
          else String c word :: words
      end
  end.

(** The two assignments to [rapids_version] after its selection; [None]
    is the KeyError of a dict without the key that is read. *)
Definition add_lists (selected : bundle) : option (gmap string value) :=
  match selected !! "rapids_conda_channels", selected !! "rapids_conda_packages" with
  | Some channels, Some packages =>
      Some (<["rapids_conda_packages_list" := StrList (split " " packages)]>
            (<["rapids_conda_channels_list" :=
                 StrList (List.filter (fun channel => negb (String.eqb channel "-c"))
                                      (split " " channels))]>
             (Str <$> selected)))
  | _, _ => None
  end.

(** [rapids_version] as the rest of the configuration sees it. *)
Definition rapids_version_with_lists (env : environ) : option (gmap string value) :=
  match rapids_version env with
  | Some selected => add_lists selected
  | None => None
  end.

Lemma split_not_nil (sep : ascii) (s : string) : split sep s <> [].
Proof.
  destruct s as [| c rest]; simpl; [discriminate |].
  destruct (split sep rest); [discriminate |].
  destruct (Ascii.eqb c sep); discriminate.
Qed.

(** Joining the words with the separator gives the string back. *)
Lemma concat_split (s : string) : String.concat " " (split " " s) = s.
Proof.
  induction s as [| c rest IH]; simpl; [reflexivity |].
  pose proof (split_not_nil " " rest) as Hne.
  destruct (split " " rest) as [| word words]; [congruence |].
  destruct (Ascii.eqb_spec c " ") as [-> | Hc].
  - change (String.concat " " ("" :: word :: words))
      with (String " " (String.concat " " (word :: words))).
    rewrite IH. reflexivity.
  - destruct words as [| word' words]; simpl in *; rewrite <- IH; reflexivity.
Qed.

(** X18: the lists lose nothing and disturb nothing.  For a selected dict
    that has the two strings, the assignments raise no KeyError;
    rapids_conda_packages_list joined by single spaces is
    rapids_conda_packages again; rapids_conda_channels_list holds the
    words of rapids_conda_channels except the "-c" between them; and every
    other key keeps the string it had. *)
Theorem derived_lists (selected : bundle) (channels packages : string) :
  selected !! "rapids_conda_channels" = Some channels ->
  selected !! "rapids_conda_packages" = Some packages ->
  exists (m : gmap string value) (cs ps : list string),
    add_lists selected = Some m /\
    m !! "rapids_conda_channels_list" = Some (StrList cs) /\
    m !! "rapids_conda_packages_list" = Some (StrList ps) /\
    String.concat " " ps = packages /\
    (forall c, List.In c cs <-> List.In c (split " " channels) /\ c <> "-c") /\
    (forall k, k <> "rapids_conda_channels_list" ->
               k <> "rapids_conda_packages_list" ->
               m !! k = Str <$> (selected !! k)).
Proof.
  intros Hc Hp. unfold add_lists. rewrite Hc, Hp.
  eexists _, _, _. split; [reflexivity |].
  split; [| split; [| split; [| split]]].
  - rewrite lookup_insert_ne by discriminate. apply lookup_insert_eq.
  - apply lookup_insert_eq.
  - apply concat_split.
  - intros c. rewrite List.filter_In.
    destruct (String.eqb_spec c "-c"); simpl; intuition congruence.
  - intros k Hk1 Hk2.
    rewrite !lookup_insert_ne by congruence. apply lookup_fmap.
Qed.

(** The stable values. *)
Lemma derived_lists_witness :
  exists (m : gmap string value) (cs ps : list string),
    add_lists stable = Some m /\
    m !! "rapids_conda_channels_list" = Some (StrList cs) /\
    m !! "rapids_conda_packages_list" = Some (StrList ps) /\
    String.concat " " ps = "rapids=25.06 python=3.12 cuda-version=12.8" /\
    (forall c, List.In c cs <->
               List.In c (split " " "-c rapidsai -c conda-forge -c nvidia") /\
               c <> "-c") /\
    (forall k, k <> "rapids_conda_channels_list" ->
               k <> "rapids_conda_packages_list" ->
               m !! k = Str <$> (stable !! k)).
Proof.
  apply (derived_lists stable "-c rapidsai -c conda-forge -c nvidia"
           "rapids=25.06 python=3.12 cuda-version=12.8"); reflexivity.
Defined.

(** The lists of the two versions. *)
Example channels_lists :
  (rapids_version_with_lists ∅ ≫= lookup "rapids_conda_channels_list") =
    Some (StrList ["rapidsai-nightly"; "conda-forge"; "nvidia"]) /\
  (rapids_version_with_lists (<["DEPLOYMENT_DOCS_BUILD_STABLE" := "true"]> ∅)
     ≫= lookup "rapids_conda_packages_list") =
    Some (StrList ["rapids=25.06"; "python=3.12"; "cuda-version=12.8"]).
Proof. split; vm_compute; reflexivity. Qed.

End Conf.
